(** * Process descriptors of the pipeline generator

    A shallow embedding of [assemblerflow/generator/process.py]: the
    [Process] class, its [Status] and [Init] specialisations and the
    catalog of concrete process classes, followed by the properties of the
    channel wiring that the specification states about them.

    Python objects are records, attribute mutation is explicit state
    passing in a state-and-exception monad (a method that raises keeps the
    mutations it performed before the raise), dictionaries with string
    keys are [gmap string _], and the interpreter and library services the
    module calls ([os.path], [jinja2], iteration order of [set]) are the
    fields of the class [Interpreter]. *)

From Stdlib Require Import ZArith Ascii.
From stdpp Require Import gmap strings list fin_maps pretty.

Open Scope string_scope.
Open Scope list_scope.

(** ** Python values and exceptions *)

(** The values that reach [str.format] and the template context. *)
Inductive pyval : Type :=
  | PNone
  | PBool (b : bool)
  | PInt (z : Z)
  | PStr (s : string).

(** [str(v)], which is what a [{}] field of [str.format] prints. *)
Definition py_str (v : pyval) : string :=
  match v with
  | PNone => "None"
  | PBool true => "True"
  | PBool false => "False"
  | PInt z => pretty z
  | PStr s => s
  end.

(** An attribute holding a string or [None]. *)
Definition py_opt (o : option string) : pyval :=
  match o with
  | Some s => PStr s
  | None => PNone
  end.

(** The line feed written ["\n"] in the source. *)
Definition nl : string := String "010"%char "".

(** [sep.join(l)] *)
Definition join (sep : string) (l : list string) : string :=
  String.concat sep l.

(** Exceptions the module raises or lets through.  The two bare
    [Exception]s of the source are told apart by their message. *)
Inductive exn : Type :=
  | MissingTemplate (tpl_path : string)
      (* Exception("Template {} does not exist") *)
  | ContextNotSet
      (* Exception("Channels must be setup first using the set_channels
         method") *)
  | AttributeError (attr : string)
  | TypeError (msg : string)
  | IndexError (msg : string)
  | KeyError (key : string)
  | TemplateEngineError (msg : string).

(** ** The descriptor *)

(** An element of [link_end]: [{"link": ..., "alias": ...}]. *)
Record link : Type := Link { link_name : string; link_alias : string }.

(** An element of [secondary_inputs]: [{"params": ..., "channel": ...}]. *)
Record secondary_input : Type :=
  SecondaryInput { si_params : string; si_channel : string }.

(** The instance attributes assigned by [Process.__init__], in the order
    of the source, and [_main_in_str], which only [IntegrityCoverage]
    assigns ([None] there stands for an attribute that was never set).
    No statement of the module assigns an attribute [_output_channel]. *)
Record Process : Type := {
  pid : pyval;
  template : string;
  _template_path : option string;
  input_type : option string;
  output_type : option string;
  ignore_type : bool;
  ignore_pid : bool;
  dependencies : list string;
  lane : pyval;
  parent_lane : pyval;
  input_channel : option string;
  output_channel : option string;
  input_user_channel : option (gmap string pyval);
  link_start : option (list string);
  link_end : list link;
  status_channels : list string;
  status_strs : list string;
  forks : list string;
  main_forks : list string;
  secondary_inputs : list secondary_input;
  secondary_input_str : string;
  _context : option (gmap string pyval);
  _main_in_str : option string
}.

(** Attribute assignment [self.<field> = v], one function per field the
    module assigns after [Process.__init__]. *)
Definition with_pid (v : pyval) (self : Process) : Process :=
  {| pid := v; template := template self; _template_path := _template_path
     self; input_type := input_type self; output_type := output_type self;
     ignore_type := ignore_type self; ignore_pid := ignore_pid self;
     dependencies := dependencies self; lane := lane self; parent_lane :=
     parent_lane self; input_channel := input_channel self; output_channel :=
     output_channel self; input_user_channel := input_user_channel self;
     link_start := link_start self; link_end := link_end self; status_channels
     := status_channels self; status_strs := status_strs self; forks := forks
     self; main_forks := main_forks self; secondary_inputs := secondary_inputs
     self; secondary_input_str := secondary_input_str self; _context :=
     _context self; _main_in_str := _main_in_str self |}.

Definition with_input_type (v : option string) (self : Process) : Process :=
  {| pid := pid self; template := template self; _template_path :=
     _template_path self; input_type := v; output_type := output_type self;
     ignore_type := ignore_type self; ignore_pid := ignore_pid self;
     dependencies := dependencies self; lane := lane self; parent_lane :=
     parent_lane self; input_channel := input_channel self; output_channel :=
     output_channel self; input_user_channel := input_user_channel self;
     link_start := link_start self; link_end := link_end self; status_channels
     := status_channels self; status_strs := status_strs self; forks := forks
     self; main_forks := main_forks self; secondary_inputs := secondary_inputs
     self; secondary_input_str := secondary_input_str self; _context :=
     _context self; _main_in_str := _main_in_str self |}.

Definition with_output_type (v : option string) (self : Process) : Process :=
  {| pid := pid self; template := template self; _template_path :=
     _template_path self; input_type := input_type self; output_type := v;
     ignore_type := ignore_type self; ignore_pid := ignore_pid self;
     dependencies := dependencies self; lane := lane self; parent_lane :=
     parent_lane self; input_channel := input_channel self; output_channel :=
     output_channel self; input_user_channel := input_user_channel self;
     link_start := link_start self; link_end := link_end self; status_channels
     := status_channels self; status_strs := status_strs self; forks := forks
     self; main_forks := main_forks self; secondary_inputs := secondary_inputs
     self; secondary_input_str := secondary_input_str self; _context :=
     _context self; _main_in_str := _main_in_str self |}.

Definition with_ignore_type (v : bool) (self : Process) : Process :=
  {| pid := pid self; template := template self; _template_path :=
     _template_path self; input_type := input_type self; output_type :=
     output_type self; ignore_type := v; ignore_pid := ignore_pid self;
     dependencies := dependencies self; lane := lane self; parent_lane :=
     parent_lane self; input_channel := input_channel self; output_channel :=
     output_channel self; input_user_channel := input_user_channel self;
     link_start := link_start self; link_end := link_end self; status_channels
     := status_channels self; status_strs := status_strs self; forks := forks
     self; main_forks := main_forks self; secondary_inputs := secondary_inputs
     self; secondary_input_str := secondary_input_str self; _context :=
     _context self; _main_in_str := _main_in_str self |}.

Definition with_ignore_pid (v : bool) (self : Process) : Process :=
  {| pid := pid self; template := template self; _template_path :=
     _template_path self; input_type := input_type self; output_type :=
     output_type self; ignore_type := ignore_type self; ignore_pid := v;
     dependencies := dependencies self; lane := lane self; parent_lane :=
     parent_lane self; input_channel := input_channel self; output_channel :=
     output_channel self; input_user_channel := input_user_channel self;
     link_start := link_start self; link_end := link_end self; status_channels
     := status_channels self; status_strs := status_strs self; forks := forks
     self; main_forks := main_forks self; secondary_inputs := secondary_inputs
     self; secondary_input_str := secondary_input_str self; _context :=
     _context self; _main_in_str := _main_in_str self |}.

Definition with_dependencies (v : list string) (self : Process) : Process :=
  {| pid := pid self; template := template self; _template_path :=
     _template_path self; input_type := input_type self; output_type :=
     output_type self; ignore_type := ignore_type self; ignore_pid :=
     ignore_pid self; dependencies := v; lane := lane self; parent_lane :=
     parent_lane self; input_channel := input_channel self; output_channel :=
     output_channel self; input_user_channel := input_user_channel self;
     link_start := link_start self; link_end := link_end self; status_channels
     := status_channels self; status_strs := status_strs self; forks := forks
     self; main_forks := main_forks self; secondary_inputs := secondary_inputs
     self; secondary_input_str := secondary_input_str self; _context :=
     _context self; _main_in_str := _main_in_str self |}.

Definition with_lane (v : pyval) (self : Process) : Process :=
  {| pid := pid self; template := template self; _template_path :=
     _template_path self; input_type := input_type self; output_type :=
     output_type self; ignore_type := ignore_type self; ignore_pid :=
     ignore_pid self; dependencies := dependencies self; lane := v; parent_lane
     := parent_lane self; input_channel := input_channel self; output_channel
     := output_channel self; input_user_channel := input_user_channel self;
     link_start := link_start self; link_end := link_end self; status_channels
     := status_channels self; status_strs := status_strs self; forks := forks
     self; main_forks := main_forks self; secondary_inputs := secondary_inputs
     self; secondary_input_str := secondary_input_str self; _context :=
     _context self; _main_in_str := _main_in_str self |}.

Definition with_input_channel (v : option string) (self : Process) : Process :=
  {| pid := pid self; template := template self; _template_path :=
     _template_path self; input_type := input_type self; output_type :=
     output_type self; ignore_type := ignore_type self; ignore_pid :=
     ignore_pid self; dependencies := dependencies self; lane := lane self;
     parent_lane := parent_lane self; input_channel := v; output_channel :=
     output_channel self; input_user_channel := input_user_channel self;
     link_start := link_start self; link_end := link_end self; status_channels
     := status_channels self; status_strs := status_strs self; forks := forks
     self; main_forks := main_forks self; secondary_inputs := secondary_inputs
     self; secondary_input_str := secondary_input_str self; _context :=
     _context self; _main_in_str := _main_in_str self |}.

Definition with_output_channel (v : option string) (self : Process) : Process :=
  {| pid := pid self; template := template self; _template_path :=
     _template_path self; input_type := input_type self; output_type :=
     output_type self; ignore_type := ignore_type self; ignore_pid :=
     ignore_pid self; dependencies := dependencies self; lane := lane self;
     parent_lane := parent_lane self; input_channel := input_channel self;
     output_channel := v; input_user_channel := input_user_channel self;
     link_start := link_start self; link_end := link_end self; status_channels
     := status_channels self; status_strs := status_strs self; forks := forks
     self; main_forks := main_forks self; secondary_inputs := secondary_inputs
     self; secondary_input_str := secondary_input_str self; _context :=
     _context self; _main_in_str := _main_in_str self |}.

Definition with_link_start (v : option (list string)) (self : Process) : Process :=
  {| pid := pid self; template := template self; _template_path :=
     _template_path self; input_type := input_type self; output_type :=
     output_type self; ignore_type := ignore_type self; ignore_pid :=
     ignore_pid self; dependencies := dependencies self; lane := lane self;
     parent_lane := parent_lane self; input_channel := input_channel self;
     output_channel := output_channel self; input_user_channel :=
     input_user_channel self; link_start := v; link_end := link_end self;
     status_channels := status_channels self; status_strs := status_strs self;
     forks := forks self; main_forks := main_forks self; secondary_inputs :=
     secondary_inputs self; secondary_input_str := secondary_input_str self;
     _context := _context self; _main_in_str := _main_in_str self |}.

Definition with_link_end (v : list link) (self : Process) : Process :=
  {| pid := pid self; template := template self; _template_path :=
     _template_path self; input_type := input_type self; output_type :=
     output_type self; ignore_type := ignore_type self; ignore_pid :=
     ignore_pid self; dependencies := dependencies self; lane := lane self;
     parent_lane := parent_lane self; input_channel := input_channel self;
     output_channel := output_channel self; input_user_channel :=
     input_user_channel self; link_start := link_start self; link_end := v;
     status_channels := status_channels self; status_strs := status_strs self;
     forks := forks self; main_forks := main_forks self; secondary_inputs :=
     secondary_inputs self; secondary_input_str := secondary_input_str self;
     _context := _context self; _main_in_str := _main_in_str self |}.

Definition with_status_channels (v : list string) (self : Process) : Process :=
  {| pid := pid self; template := template self; _template_path :=
     _template_path self; input_type := input_type self; output_type :=
     output_type self; ignore_type := ignore_type self; ignore_pid :=
     ignore_pid self; dependencies := dependencies self; lane := lane self;
     parent_lane := parent_lane self; input_channel := input_channel self;
     output_channel := output_channel self; input_user_channel :=
     input_user_channel self; link_start := link_start self; link_end :=
     link_end self; status_channels := v; status_strs := status_strs self;
     forks := forks self; main_forks := main_forks self; secondary_inputs :=
     secondary_inputs self; secondary_input_str := secondary_input_str self;
     _context := _context self; _main_in_str := _main_in_str self |}.

Definition with_status_strs (v : list string) (self : Process) : Process :=
  {| pid := pid self; template := template self; _template_path :=
     _template_path self; input_type := input_type self; output_type :=
     output_type self; ignore_type := ignore_type self; ignore_pid :=
     ignore_pid self; dependencies := dependencies self; lane := lane self;
     parent_lane := parent_lane self; input_channel := input_channel self;
     output_channel := output_channel self; input_user_channel :=
     input_user_channel self; link_start := link_start self; link_end :=
     link_end self; status_channels := status_channels self; status_strs := v;
     forks := forks self; main_forks := main_forks self; secondary_inputs :=
     secondary_inputs self; secondary_input_str := secondary_input_str self;
     _context := _context self; _main_in_str := _main_in_str self |}.

Definition with_forks (v : list string) (self : Process) : Process :=
  {| pid := pid self; template := template self; _template_path :=
     _template_path self; input_type := input_type self; output_type :=
     output_type self; ignore_type := ignore_type self; ignore_pid :=
     ignore_pid self; dependencies := dependencies self; lane := lane self;
     parent_lane := parent_lane self; input_channel := input_channel self;
     output_channel := output_channel self; input_user_channel :=
     input_user_channel self; link_start := link_start self; link_end :=
     link_end self; status_channels := status_channels self; status_strs :=
     status_strs self; forks := v; main_forks := main_forks self;
     secondary_inputs := secondary_inputs self; secondary_input_str :=
     secondary_input_str self; _context := _context self; _main_in_str :=
     _main_in_str self |}.

Definition with_main_forks (v : list string) (self : Process) : Process :=
  {| pid := pid self; template := template self; _template_path :=
     _template_path self; input_type := input_type self; output_type :=
     output_type self; ignore_type := ignore_type self; ignore_pid :=
     ignore_pid self; dependencies := dependencies self; lane := lane self;
     parent_lane := parent_lane self; input_channel := input_channel self;
     output_channel := output_channel self; input_user_channel :=
     input_user_channel self; link_start := link_start self; link_end :=
     link_end self; status_channels := status_channels self; status_strs :=
     status_strs self; forks := forks self; main_forks := v; secondary_inputs
     := secondary_inputs self; secondary_input_str := secondary_input_str self;
     _context := _context self; _main_in_str := _main_in_str self |}.

Definition with_secondary_inputs (v : list secondary_input) (self : Process) : Process :=
  {| pid := pid self; template := template self; _template_path :=
     _template_path self; input_type := input_type self; output_type :=
     output_type self; ignore_type := ignore_type self; ignore_pid :=
     ignore_pid self; dependencies := dependencies self; lane := lane self;
     parent_lane := parent_lane self; input_channel := input_channel self;
     output_channel := output_channel self; input_user_channel :=
     input_user_channel self; link_start := link_start self; link_end :=
     link_end self; status_channels := status_channels self; status_strs :=
     status_strs self; forks := forks self; main_forks := main_forks self;
     secondary_inputs := v; secondary_input_str := secondary_input_str self;
     _context := _context self; _main_in_str := _main_in_str self |}.

Definition with_context (v : option (gmap string pyval)) (self : Process) : Process :=
  {| pid := pid self; template := template self; _template_path :=
     _template_path self; input_type := input_type self; output_type :=
     output_type self; ignore_type := ignore_type self; ignore_pid :=
     ignore_pid self; dependencies := dependencies self; lane := lane self;
     parent_lane := parent_lane self; input_channel := input_channel self;
     output_channel := output_channel self; input_user_channel :=
     input_user_channel self; link_start := link_start self; link_end :=
     link_end self; status_channels := status_channels self; status_strs :=
     status_strs self; forks := forks self; main_forks := main_forks self;
     secondary_inputs := secondary_inputs self; secondary_input_str :=
     secondary_input_str self; _context := v; _main_in_str := _main_in_str self
     |}.

Definition with_main_in_str (v : option string) (self : Process) : Process :=
  {| pid := pid self; template := template self; _template_path :=
     _template_path self; input_type := input_type self; output_type :=
     output_type self; ignore_type := ignore_type self; ignore_pid :=
     ignore_pid self; dependencies := dependencies self; lane := lane self;
     parent_lane := parent_lane self; input_channel := input_channel self;
     output_channel := output_channel self; input_user_channel :=
     input_user_channel self; link_start := link_start self; link_end :=
     link_end self; status_channels := status_channels self; status_strs :=
     status_strs self; forks := forks self; main_forks := main_forks self;
     secondary_inputs := secondary_inputs self; secondary_input_str :=
     secondary_input_str self; _context := _context self; _main_in_str := v |}.

(** ** Methods as state transformers

    A method runs on the descriptor [self] and either returns a value or
    raises; in both cases the descriptor it leaves behind is part of the
    result. *)
Definition M (A : Type) : Type := Process → (exn + A) * Process.

Definition ret {A} (a : A) : M A := λ self, (inr a, self).

Definition bind {A B} (m : M A) (k : A → M B) : M B :=
  λ self,
    match m self with
    | (inr a, self') => k a self'
    | (inl e, self') => (inl e, self')
    end.

Definition raise {A} (e : exn) : M A := λ self, (inl e, self).

Definition get : M Process := λ self, (inr self, self).

Definition modify (f : Process → Process) : M unit :=
  λ self, (inr tt, f self).

Notation "'do' x <- m ; k" := (bind m (λ x, k))
  (at level 10, x name, m at level 100, k at level 200,
   format "'[v' 'do'  x  <-  m ; '/' k ']'").
Notation "'do' ' p <- m ; k" := (bind m (λ x, let 'p := x in k))
  (at level 10, p pattern, m at level 100, k at level 200,
   format "'[v' 'do'  ' p  <-  m ; '/' k ']'").
Notation "m ;; k" := (bind m (λ _, k))
  (at level 100, k at level 200, right associativity).

(** [for x in l: body(x)] *)
Fixpoint for_each {A} (l : list A) (body : A → M unit) : M unit :=
  match l with
  | [] => ret tt
  | x :: l' => body x ;; for_each l' body
  end.

(** The outcome of running a method and the descriptor it leaves. *)
Definition outcome {A} (r : (exn + A) * Process) : exn + A := r.1.
Definition after {A} (r : (exn + A) * Process) : Process := r.2.

(** [self.forks.append(s)], [self.status_strs.append(s)] and
    [self.main_forks.append(s)]. *)
Definition forks_append (s : string) : M unit :=
  modify (λ self, with_forks (forks self ++ [s]) self).

Definition status_strs_append (s : string) : M unit :=
  modify (λ self, with_status_strs (status_strs self ++ [s]) self).

Definition main_forks_append (s : string) : M unit :=
  modify (λ self, with_main_forks (main_forks self ++ [s]) self).

(** Reading [self._output_channel]: the attribute does not exist on any
    instance, so the read raises. *)
Definition getattr__output_channel : M string :=
  raise (AttributeError "_output_channel").

(** [self._context[key] = v]; [None] does not support item assignment. *)
Definition context_setitem (key : string) (v : pyval) : M unit :=
  do self <- get;
  match _context self with
  | None => raise (TypeError "'NoneType' object does not support item assignment")
  | Some ctx => modify (with_context (Some (<[key := v]> ctx)))
  end.

(** [self._context[key]] *)
Definition context_getitem (key : string) : M pyval :=
  do self <- get;
  match _context self with
  | None => raise (TypeError "'NoneType' object is not subscriptable")
  | Some ctx =>
      match ctx !! key with
      | Some v => ret v
      | None => raise (KeyError key)
      end
  end.

(** [{**self._context, **new}]: unpacking [None] is a [TypeError]; keys of
    [new] win. *)
Definition context_merge (new : gmap string pyval) : M unit :=
  do self <- get;
  match _context self with
  | None => raise (TypeError "'NoneType' object is not a mapping")
  | Some ctx => modify (with_context (Some (new ∪ ctx)))
  end.

(** ** The raw channel mapping *)

(** An entry of [Process.RAW_MAPPING]. *)
Definition raw_entry (params channel channel_str : string)
  : gmap string pyval :=
  {[ "params" := PStr params;
     "channel" := PStr channel;
     "channel_str" := PStr channel_str ]}.

Definition RAW_MAPPING : gmap string (gmap string pyval) :=
  {[ "fastq" :=
       raw_entry "fastq" "IN_fastq_raw"
         "IN_fastq_raw = Channel.fromFilePairs(params.fastq)";
     "assembly" :=
       raw_entry "fasta" "IN_fasta_raw"
         "IN_fasta_raw = Channel.fromFilePairs(params.fasta)" ]}.

(** ** Methods of [Process] that need no service of the interpreter *)

(** [Process.set_main_channel_names] *)
Definition set_main_channel_names (input_suffix output_suffix lane : pyval)
  : M unit :=
  modify (λ self,
    with_input_channel
      (Some (template self +:+ "_in_" +:+ py_str input_suffix)) self) ;;
  modify (λ self,
    with_output_channel
      (Some (template self +:+ "_out_" +:+ py_str output_suffix)) self) ;;
  modify (with_lane lane).

(** [Process.get_user_channel]; [None] when the input type has no entry
    in [RAW_MAPPING]. *)
Definition get_user_channel : M (option (gmap string pyval)) :=
  do self <- get;
  let res : gmap string pyval :=
    {[ "input_channel" := py_opt (input_channel self) ]} in
  match input_type self ≫= (RAW_MAPPING !!.) with
  | Some entry => ret (Some (entry ∪ res))
  | None => ret None
  end.

(** [Process.set_channels], with the keyword arguments as a map. *)
Definition set_channels (kwargs : gmap string pyval) : M unit :=
  modify (with_pid (default PNone (kwargs !! "pid"))) ;;
  (do self <- get;
   for_each (status_channels self) (λ i,
     do self <- get;
     status_strs_append (i +:+ "_" +:+ py_str (pid self)))) ;;
  (do self <- get;
   if bool_decide (main_forks self ≠ []) then
     let operator :=
       if bool_decide (length (main_forks self) = 1) then "set"
       else "into" in
     forks_append
       (nl +:+ py_str (py_opt (output_channel self)) +:+ "." +:+ operator
          +:+ "{ " +:+ join ";" (main_forks self) +:+ " }" +:+ nl)
   else ret tt) ;;
  do self <- get;
  modify (with_context (Some (
    ({[ "input_channel" := py_opt (input_channel self);
        "output_channel" := py_opt (output_channel self);
        "template" := PStr (template self);
        "forks" := PStr (join nl (forks self)) ]} : gmap string pyval)
    ∪ kwargs))).

(** [Process.update_main_forks] *)
Definition update_main_forks (sink : string) : M unit :=
  main_forks_append sink.

(** [Status.set_status_channels] *)
Definition set_status_channels (channel_list : list string) : M unit :=
  if bool_decide (length channel_list = 1) then
    match channel_list !! 0%nat with
    | Some c =>
        modify (with_context (Some {[ "status_channels" := PStr c ]}))
    | None => raise (IndexError "list index out of range")
    end
  else
    match channel_list !! 0%nat with
    | Some first_status =>
        let lst := join "," (drop 1 channel_list) in
        let s := first_status +:+ ".mix(" +:+ lst +:+ ")" in
        modify (with_context (Some {[ "status_channels" := PStr s ]}))
    | None => raise (IndexError "list index out of range")
    end.

(** A value of the mapping [Init.set_raw_inputs] receives. *)
Record raw_input_record : Type := RawInput {
  ri_channel : string;
  ri_channel_str : string;
  ri_raw_forks : list string
}.

(** [Init.set_raw_inputs]; the mapping is the list of its items in
    iteration order.  [primary_inputs] is a local list, threaded through
    the loop. *)
Fixpoint set_raw_inputs_loop (values : list raw_input_record)
    (primary_inputs : list string) : M (list string) :=
  match values with
  | [] => ret primary_inputs
  | el :: values' =>
      let primary_inputs := primary_inputs ++ [ri_channel_str el] in
      (if bool_decide (length (ri_raw_forks el) = 1) then
         match ri_raw_forks el !! 0%nat with
         | Some t =>
             forks_append
               (nl +:+ ri_channel el +:+ ".set{ " +:+ t +:+ " }" +:+ nl)
         | None => raise (IndexError "list index out of range")
         end
       else
         forks_append
           (nl +:+ ri_channel el +:+ ".into{ "
              +:+ join ";" (ri_raw_forks el) +:+ " }" +:+ nl)) ;;
      set_raw_inputs_loop values' primary_inputs
  end.

Definition set_raw_inputs (raw_input : list (string * raw_input_record))
  : M unit :=
  do primary_inputs <- set_raw_inputs_loop (raw_input.*2) [];
  do self <- get;
  context_merge
    {[ "forks" := PStr (join nl (forks self));
       "main_inputs" := PStr (join nl primary_inputs) ]}.

(** [Init.set_secondary_inputs] *)
Definition set_secondary_inputs (channel_dict : list (string * string))
  : M unit :=
  let secondary_input_str := join nl (channel_dict.*2) in
  context_merge {[ "secondary_inputs" := PStr secondary_input_str ]}.

(** The attribute values [Process.__init__] assigns, given the template
    name and the path [_set_template] resolved. *)
Definition Process_defaults (template tpl_path : string) : Process :=
  {| pid := PNone;
     template := template;
     _template_path := Some tpl_path;
     input_type := None;
     output_type := None;
     ignore_type := false;
     ignore_pid := false;
     dependencies := [];
     lane := PNone;
     parent_lane := PNone;
     input_channel := None;
     output_channel := None;
     input_user_channel := None;
     link_start := Some [];
     link_end := [];
     status_channels := ["STATUS"];
     status_strs := [];
     forks := [];
     main_forks := [];
     secondary_inputs := [];
     secondary_input_str := "";
     _context := None;
     _main_in_str := None |}.

(** ** Services of the interpreter and of the libraries

    What the module obtains from outside the repository. *)
Class Interpreter : Type := {
  (** [dirname(abspath(__file__))] *)
  module_dir : string;
  (** [os.path.join] *)
  path_join : string → string → string;
  (** [os.path.exists] *)
  path_exists : string → bool;
  (** [os.path.split] *)
  path_split : string → string * string;
  (** [jinja2.Environment(loader=FileSystemLoader(p)).get_template(f)
      .render(context)]: the rendered text, or the message of the
      exception the engine raises. *)
  jinja_render : string → string → gmap string pyval → string + string;
  (** The order in which [list(set(l))] lists the elements of [l]. *)
  set_iter : list string → list string
}.

(** What Python guarantees about [list(set(l))]: no element twice, and
    the elements are those of [l]. *)
Definition set_iter_spec `{Interpreter} : Prop :=
  ∀ l : list string,
    NoDup (set_iter l) ∧ ∀ x : string, x ∈ set_iter l ↔ x ∈ l.

Section Methods.
Context `{Interpreter}.

(** [Process._set_template]: the path assigned to [_template_path], or
    the exception. *)
Definition _set_template (template : string) : exn + string :=
  let tpl_dir := path_join module_dir "templates" in
  let tpl_path := path_join tpl_dir (template +:+ ".nf") in
  if negb (path_exists tpl_path) then inl (MissingTemplate tpl_path)
  else inr (path_join tpl_dir (template +:+ ".nf")).

(** [Process.__init__]: the new descriptor, or the exception that aborts
    the construction. *)
Definition Process__init__ (template : string) : exn + Process :=
  match _set_template template with
  | inl e => inl e
  | inr tpl_path => inr (Process_defaults template tpl_path)
  end.

(** [Process.render] *)
Definition render (template : string) (context : gmap string pyval)
  : string + string :=
  let '(path, filename) := path_split template in
  jinja_render (if bool_decide (path = "") then "./" else path)
    filename context.

(** The property [Process.template_str].  [not self._context] holds of
    [None] and of the empty dictionary. *)
Definition template_str : M string :=
  do self <- get;
  (if match _context self with
      | None => true
      | Some ctx => bool_decide (size ctx = 0)
      end
   then raise ContextNotSet else ret tt) ;;
  match _template_path self, _context self with
  | Some tpl_path, Some ctx =>
      match render tpl_path ctx with
      | inr x => ret x
      | inl msg => raise (TemplateEngineError msg)
      end
  | _, _ => raise (TypeError "expected str, bytes or os.PathLike object")
  end.

(** [Process.set_secondary_channel] *)
Definition set_secondary_channel (source : string)
    (channel_list : list string) : M unit :=
  do '(source, channel_list) <-
    (if String.prefix "MAIN" source then
       do oc <- getattr__output_channel;
       context_setitem "output_channel" (PStr ("_" +:+ oc)) ;;
       do source <- context_getitem "output_channel";
       do oc <- getattr__output_channel;
       ret (source, channel_list ++ [oc])
     else
       do self <- get;
       ret (PStr (source +:+ "_" +:+ py_str (pid self)), channel_list));
  let channel_list := set_iter channel_list in
  (if bool_decide (length channel_list = 1) then
     match channel_list !! 0%nat with
     | Some c =>
         forks_append
           (nl +:+ py_str source +:+ ".set{ " +:+ c +:+ " }" +:+ nl)
     | None => raise (IndexError "list index out of range")
     end
   else
     forks_append
       (nl +:+ py_str source +:+ ".into{ " +:+ join ";" channel_list
          +:+ " }" +:+ nl)) ;;
  do self <- get;
  context_merge {[ "forks" := PStr (join nl (forks self)) ]}.

(** ** Constructors of the subclasses *)

(** The constructor of the parent class followed by the assignments of
    the subclass. *)
Definition subclass_init (super : string → exn + Process)
    (body : M unit) (template : string) : exn + Process :=
  match super template with
  | inl e => inl e
  | inr self =>
      match body self with
      | (inr _, self') => inr self'
      | (inl e, _) => inl e
      end
  end.

(** [self.link_start.extend(l)] and [self.link_start.append(x)] *)
Definition link_start_extend (l : list string) : M unit :=
  do self <- get;
  match link_start self with
  | Some l0 => modify (with_link_start (Some (l0 ++ l)))
  | None => raise (AttributeError "extend")
  end.

(** [self.link_end.append({"link": l, "alias": a})] *)
Definition link_end_append (l a : string) : M unit :=
  modify (λ self, with_link_end (link_end self ++ [Link l a]) self).

Definition Status__init__ : string → exn + Process :=
  subclass_init Process__init__ (ret tt).

Definition Init__init__ : string → exn + Process :=
  subclass_init Process__init__
    (modify (with_input_type None) ;;
     modify (with_output_type (Some "raw")) ;;
     modify (with_status_channels [])).

Definition IntegrityCoverage__init__ : string → exn + Process :=
  subclass_init Process__init__
    (modify (with_input_type (Some "fastq")) ;;
     modify (with_output_type (Some "fastq")) ;;
     modify (with_main_in_str (Some "MAIN_raw")) ;;
     modify (with_secondary_inputs
       [ SecondaryInput "genomeSize"
           "IN_genome_size = Channel.value(params.genomeSize)";
         SecondaryInput "minCoverage"
           "IN_min_coverage = Channel.value(params.minCoverage)" ]) ;;
     link_start_extend ["SIDE_phred"; "SIDE_max_len"]).

Definition SeqTyping__init__ : string → exn + Process :=
  subclass_init Process__init__
    (modify (with_input_type (Some "fastq")) ;;
     modify (with_output_type None) ;;
     modify (with_ignore_type true) ;;
     modify (with_ignore_pid true) ;;
     modify (with_status_channels []) ;;
     modify (with_link_start None) ;;
     link_end_append "MAIN_raw" "SIDE_SeqType_raw").

Definition PathoTyping__init__ : string → exn + Process :=
  subclass_init Process__init__
    (modify (with_input_type (Some "fastq")) ;;
     modify (with_output_type None) ;;
     modify (with_ignore_type true) ;;
     modify (with_ignore_pid true) ;;
     modify (with_status_channels []) ;;
     modify (with_secondary_inputs
       [ SecondaryInput "pathoSpecies"
           "IN_pathoSpecies = Channel.value(params.pathoSpecies)" ]) ;;
     modify (with_link_start None) ;;
     link_end_append "MAIN_raw" "SIDE_PathoType_raw").

Definition CheckCoverage__init__ : string → exn + Process :=
  subclass_init Process__init__
    (modify (with_input_type (Some "fastq")) ;;
     modify (with_output_type (Some "fastq")) ;;
     modify (with_secondary_inputs
       [ SecondaryInput "genomeSize"
           "IN_genome_size = Channel.value(params.genomeSize)";
         SecondaryInput "minCoverage"
           "IN_min_coverage = Channel.value(params.minCoverage)" ]) ;;
     link_start_extend ["SIDE_max_len"]).

Definition FastQC__init__ : string → exn + Process :=
  subclass_init Process__init__
    (modify (with_input_type (Some "fastq")) ;;
     modify (with_output_type (Some "fastq")) ;;
     modify (with_status_channels ["STATUS_fastqc"; "STATUS_report"]) ;;
     modify (with_secondary_inputs
       [ SecondaryInput "adapters"
           "IN_adapters = Channel.value(params.adapters)" ])).

Definition Trimmomatic__init__ : string → exn + Process :=
  subclass_init Process__init__
    (modify (with_input_type (Some "fastq")) ;;
     modify (with_output_type (Some "fastq")) ;;
     link_end_append "SIDE_phred" "SIDE_phred" ;;
     modify (with_secondary_inputs
       [ SecondaryInput "trimOpts"
           ("IN_trimmomatic_opts = "
            +:+ "Channel.value([params.trimSlidingWindow,"
            +:+ "params.trimLeading,params.trimTrailing,"
            +:+ "params.trimMinLength])") ])).

Definition FastqcTrimmomatic__init__ : string → exn + Process :=
  subclass_init Process__init__
    (modify (with_input_type (Some "fastq")) ;;
     modify (with_output_type (Some "fastq")) ;;
     link_end_append "SIDE_phred" "SIDE_phred" ;;
     modify (with_status_channels
       ["STATUS_fastqc"; "STATUS_report"; "STATUS_trim"]) ;;
     modify (with_secondary_inputs
       [ SecondaryInput "adapters"
           "IN_adapters = Channel.value(params.adapters)";
         SecondaryInput "trimOpts"
           ("IN_trimmomatic_opts = "
            +:+ "Channel.value([params.trimSlidingWindow,"
            +:+ "params.trimLeading,params.trimTrailing,"
            +:+ "params.trimMinLength])") ])).

Definition Skesa__init__ : string → exn + Process :=
  subclass_init Process__init__
    (modify (with_input_type (Some "fastq")) ;;
     modify (with_output_type (Some "assembly"))).

Definition Spades__init__ : string → exn + Process :=
  subclass_init Process__init__
    (modify (with_input_type (Some "fastq")) ;;
     modify (with_output_type (Some "assembly")) ;;
     link_end_append "SIDE_max_len" "SIDE_max_len" ;;
     modify (with_secondary_inputs
       [ SecondaryInput "spadesOpts"
           ("IN_spades_opts = Channel.value("
            +:+ "[params.spadesMinCoverage,"
            +:+ "params.spadesMinKmerCoverage])");
         SecondaryInput "spadesKmers"
           "IN_spades_kmers = Channel.value(params.spadesKmers)" ])).

Definition ProcessSpades__init__ : string → exn + Process :=
  subclass_init Process__init__
    (modify (with_input_type (Some "assembly")) ;;
     modify (with_output_type (Some "assembly")) ;;
     modify (with_secondary_inputs
       [ SecondaryInput "processSpadesOpts"
           ("IN_process_spades_opts = "
            +:+ "Channel.value([params.spadesMinContigLen,"
            +:+ "params.spadesMinKmerCoverage,"
            +:+ "params.spadesMaxContigs])") ])).

Definition AssemblyMapping__init__ : string → exn + Process :=
  subclass_init Process__init__
    (modify (with_input_type (Some "assembly")) ;;
     modify (with_output_type (Some "assembly")) ;;
     modify (with_status_channels ["STATUS_am"; "STATUS_amp"]) ;;
     link_start_extend ["SIDE_BpCoverage"] ;;
     link_end_append "MAIN_fq" "_MAIN_assembly" ;;
     modify (with_secondary_inputs
       [ SecondaryInput "assemblyMappingOpts"
           ("IN_assembly_mapping_opts = "
            +:+ "Channel.value([params.minAssemblyCoverage,"
            +:+ "params.AMaxContigs])") ])).

Definition Pilon__init__ : string → exn + Process :=
  subclass_init Process__init__
    (modify (with_input_type (Some "assembly")) ;;
     modify (with_output_type (Some "assembly")) ;;
     modify (with_dependencies ["assembly_mapping"]) ;;
     link_end_append "SIDE_BpCoverage" "SIDE_BpCoverage").

Definition Mlst__init__ : string → exn + Process :=
  subclass_init Process__init__
    (modify (with_input_type (Some "assembly")) ;;
     modify (with_output_type (Some "assembly"))).

(** [Abricate], [Prokka] and [Chewbbaca] have the same constructor body. *)
Definition assembly_terminal_body : M unit :=
  modify (with_input_type (Some "assembly")) ;;
  modify (with_output_type None) ;;
  modify (with_ignore_type true) ;;
  modify (with_link_start None) ;;
  link_end_append "MAIN_assembly" "MAIN_assembly".

Definition Abricate__init__ : string → exn + Process :=
  subclass_init Process__init__ assembly_terminal_body.

Definition Prokka__init__ : string → exn + Process :=
  subclass_init Process__init__ assembly_terminal_body.

Definition Chewbbaca__init__ : string → exn + Process :=
  subclass_init Process__init__ assembly_terminal_body.

Definition TraceCompiler__init__ : string → exn + Process :=
  subclass_init Process__init__
    (modify (with_link_start None) ;;
     modify (with_ignore_type true)).

Definition StatusCompiler__init__ : string → exn + Process :=
  subclass_init Status__init__
    (modify (with_ignore_type true) ;;
     modify (with_link_start None)).

(** Every class of the module, by its constructor. *)
Definition constructors : list (string → exn + Process) :=
  [ Process__init__; Status__init__; Init__init__;
    IntegrityCoverage__init__; SeqTyping__init__; PathoTyping__init__;
    CheckCoverage__init__; FastQC__init__; Trimmomatic__init__;
    FastqcTrimmomatic__init__; Skesa__init__; Spades__init__;
    ProcessSpades__init__; AssemblyMapping__init__; Pilon__init__;
    Mlst__init__; Abricate__init__; Prokka__init__; Chewbbaca__init__;
    TraceCompiler__init__; StatusCompiler__init__ ].

End Methods.

(** ** A concrete interpreter

    A file system holding the templates of the catalog, POSIX
    [os.path.join] and [os.path.split] restricted to the relative names
    the module builds, an engine that returns the template name, and sets
    that list each element once, at the place of its last occurrence. *)
Definition demo_templates : list string :=
  [ "init"; "integrity_coverage"; "fastqc"; "trimmomatic"; "spades";
    "status_compiler" ].

Definition demo_join (a b : string) : string := a +:+ "/" +:+ b.

Definition demo_exists (path : string) : bool :=
  bool_decide
    (path ∈ (λ t, demo_join (demo_join "/opt/generator" "templates")
                    (t +:+ ".nf")) <$> demo_templates).

Definition demo_interpreter : Interpreter := {|
  module_dir := "/opt/generator";
  path_join := demo_join;
  path_exists := demo_exists;
  path_split := λ p, ("/opt/generator/templates", p);
  jinja_render := λ _ filename _, inr filename;
  set_iter := remove_dups
|}.

(** The descriptor a constructor call produced (the blank one if it
    raised). *)
Definition built (r : exn + Process) : Process :=
  match r with
  | inr self => self
  | inl _ => Process_defaults "" ""
  end.

(** A [Spades] step at position 2 writing to [spades_out_3]. *)
Definition demo_spades : Process :=
  after (set_channels {[ "pid" := PInt 2 ]}
    (after (set_main_channel_names (PInt 2) (PInt 3) (PInt 1)
      (built (@Spades__init__ demo_interpreter "spades"))))).

(** A [Spades] step before [set_channels], with one broadcast
    destination. *)
Definition demo_forked : Process :=
  after (update_main_forks "abricate_in_3"
    (after (set_main_channel_names (PInt 2) (PInt 3) (PInt 1)
      (built (@Spades__init__ demo_interpreter "spades"))))).

(** An [IntegrityCoverage] step at position 7. *)
Definition demo_integrity : Process :=
  after (set_channels {[ "pid" := PInt 7 ]}
    (after (set_main_channel_names (PInt 7) (PInt 8) (PInt 1)
      (built (@IntegrityCoverage__init__ demo_interpreter
                "integrity_coverage"))))).

(** The entry point after [set_channels]. *)
Definition demo_init : Process :=
  after (set_channels {[ "pid" := PInt 0 ]}
    (built (@Init__init__ demo_interpreter "init"))).

(** A raw-input mapping with one entry and one fork target. *)
Definition demo_raw_one : list (string * raw_input_record) :=
  [ ("fastq",
     RawInput "IN_fastq_raw"
       "IN_fastq_raw = Channel.fromFilePairs(params.fastq)"
       ["integrity_coverage_in_0"]) ].

(** ** Vocabulary of the statements *)

(** The two fork statement forms of the specification. *)
Definition spec_fork_statement (source : string) (dests : list string)
  : string :=
  match dests with
  | [d] => nl +:+ source +:+ ".set{ " +:+ d +:+ " }" +:+ nl
  | _ => nl +:+ source +:+ ".into{ " +:+ join ";" dests +:+ " }" +:+ nl
  end.

(** What one call of [set_channels] appends to [forks]. *)
Definition main_fork_statements (self : Process) : list string :=
  match main_forks self with
  | [] => []
  | ds => [spec_fork_statement (py_str (py_opt (output_channel self))) ds]
  end.

(** A status base name qualified by the position. *)
Definition qualified (pidv : pyval) (base : string) : string :=
  base +:+ "_" +:+ py_str pidv.

(** How many times [x] is listed in [l]. *)
Fixpoint occurrences (x : string) (l : list string) : nat :=
  match l with
  | [] => 0
  | y :: l' => (if decide (x = y) then 1 else 0) + occurrences x l'
  end.

(** The value the context holds under [key], if there is a context. *)
Definition context_value (self : Process) (key : string) : option pyval :=
  _context self ≫= (.!! key).

(** The path [_set_template] resolves for a template name. *)
Definition resolved_path `{Interpreter} (name : string) : string :=
  path_join (path_join module_dir "templates") (name +:+ ".nf").

(** A descriptor as a constructor leaves it: whatever its class declares,
    the template name and its path are the resolved ones, and the
    position, the lists the wiring accumulates and the context are those
    [Process.__init__] assigns. *)
Definition fresh `{Interpreter} (name : string) (self : Process) : Prop :=
  template self = name
  ∧ _template_path self = Some (resolved_path name)
  ∧ pid self = PNone
  ∧ status_strs self = []
  ∧ forks self = []
  ∧ main_forks self = []
  ∧ _context self = None.

(** The statement [set_raw_inputs] appends for one raw input. *)
Definition raw_fork_statement (el : raw_input_record) : string :=
  spec_fork_statement (ri_channel el) (ri_raw_forks el).

(** Whether a string contains the separator [_] of the qualified
    names. *)
Fixpoint has_underscore (s : string) : bool :=
  match s with
  | "" => false
  | String c s' => bool_decide (c = "_"%char) || has_underscore s'
  end.

(** * Properties *)

(** ** Running the monad *)

Lemma bind_ok {A B} (m : M A) (k : A → M B) self a self' :
  m self = (inr a, self') → bind m k self = k a self'.
Proof. unfold bind. intros ->. reflexivity. Qed.

Lemma bind_raise {A B} (m : M A) (k : A → M B) self e self' :
  m self = (inl e, self') → bind m k self = (inl e, self').
Proof. unfold bind. intros ->. reflexivity. Qed.

(** ** [set_channels] *)

(** The status loop appends the qualified names in order and touches
    nothing else. *)
Lemma status_loop_run (l : list string) (self : Process) :
  for_each l (λ i,
    do self <- get;
    status_strs_append (i +:+ "_" +:+ py_str (pid self))) self
  = (inr tt,
     with_status_strs (status_strs self ++ (qualified (pid self) <$> l))
       self).
Proof.
  revert self. induction l as [|i l IH]; intros self.
  - destruct self. cbn. rewrite app_nil_r. reflexivity.
  - cbn [for_each]. erewrite bind_ok by reflexivity.
    rewrite IH. destruct self. cbn. rewrite <- app_assoc. reflexivity.
Qed.

(** [set_channels] never raises, and this is the descriptor it leaves. *)
Lemma set_channels_run (kwargs : gmap string pyval) (self : Process) :
  set_channels kwargs self =
  (inr tt,
   let pidv := default PNone (kwargs !! "pid") in
   let fks := forks self ++ main_fork_statements self in
   {| pid := pidv;
      template := template self;
      _template_path := _template_path self;
      input_type := input_type self;
      output_type := output_type self;
      ignore_type := ignore_type self;
      ignore_pid := ignore_pid self;
      dependencies := dependencies self;
      lane := lane self;
      parent_lane := parent_lane self;
      input_channel := input_channel self;
      output_channel := output_channel self;
      input_user_channel := input_user_channel self;
      link_start := link_start self;
      link_end := link_end self;
      status_channels := status_channels self;
      status_strs :=
        status_strs self ++ (qualified pidv <$> status_channels self);
      forks := fks;
      main_forks := main_forks self;
      secondary_inputs := secondary_inputs self;
      secondary_input_str := secondary_input_str self;
      _context := Some (
        ({[ "input_channel" := py_opt (input_channel self);
            "output_channel" := py_opt (output_channel self);
            "template" := PStr (template self);
            "forks" := PStr (join nl fks) ]} : gmap string pyval)
        ∪ kwargs);
      _main_in_str := _main_in_str self |}).
Proof.
  unfold set_channels.
  erewrite bind_ok by reflexivity.
  erewrite bind_ok.
  2:{ erewrite bind_ok by reflexivity. apply status_loop_run. }
  destruct self as [? ? ? ? ? ? ? ? ? ? ? ? ? ? ? ? ? ? mf ? ? ? ?].
  destruct mf as [|d [|d' mf]]; cbn; rewrite ?app_nil_r; reflexivity.
Qed.

(** The attributes after [set_channels], one by one. *)
Lemma set_channels_outcome kwargs self :
  outcome (set_channels kwargs self) = inr tt.
Proof. rewrite set_channels_run. reflexivity. Qed.

Lemma set_channels_forks kwargs self :
  forks (after (set_channels kwargs self))
  = forks self ++ main_fork_statements self.
Proof. rewrite set_channels_run. reflexivity. Qed.

Lemma set_channels_status kwargs self :
  status_strs (after (set_channels kwargs self))
  = status_strs self
    ++ (qualified (default PNone (kwargs !! "pid")) <$> status_channels self).
Proof. rewrite set_channels_run. reflexivity. Qed.

Lemma set_channels_context_forks kwargs self :
  context_value (after (set_channels kwargs self)) "forks"
  = Some (PStr (join nl (forks (after (set_channels kwargs self))))).
Proof.
  rewrite set_channels_run. unfold context_value, after. simpl.
  apply lookup_union_Some_l.
  rewrite !lookup_insert_ne by discriminate.
  apply lookup_singleton_eq.
Qed.

Lemma set_channels_preserves kwargs self :
  main_forks (after (set_channels kwargs self)) = main_forks self
  ∧ status_channels (after (set_channels kwargs self)) = status_channels self
  ∧ output_channel (after (set_channels kwargs self)) = output_channel self
  ∧ main_fork_statements (after (set_channels kwargs self))
    = main_fork_statements self.
Proof. rewrite set_channels_run. repeat split; reflexivity. Qed.

(** A sequence of [update_main_forks] calls appends the sinks in call
    order and touches nothing else. *)
Lemma update_main_forks_run (sinks : list string) (self : Process) :
  for_each sinks update_main_forks self
  = (inr tt, with_main_forks (main_forks self ++ sinks) self).
Proof.
  revert self. induction sinks as [|d sinks IH]; intros self.
  - destruct self. cbn. rewrite app_nil_r. reflexivity.
  - cbn [for_each]. erewrite bind_ok by reflexivity.
    rewrite IH. destruct self. cbn. rewrite <- app_assoc. reflexivity.
Qed.

(** C3: [set_channels] returns, and with the main forks the calls of
    [update_main_forks] have accumulated (appended in call order) it
    appends to the fork list nothing when there is none, the [set]
    statement when there is exactly one, and the [into] statement with all
    of them joined by semicolons in that order when there are two or more.
    The output channel is printed the way [str.format] prints it. *)
Theorem set_channels_main_fork_statement
    (self : Process) (sinks : list string) (kwargs : gmap string pyval) :
  let self1 := after (for_each sinks update_main_forks self) in
  let r := set_channels kwargs self1 in
  let oc := py_str (py_opt (output_channel self)) in
  main_forks self1 = main_forks self ++ sinks ∧
  outcome r = inr tt ∧
  match main_forks self1 with
  | [] => forks (after r) = forks self
  | [d] =>
      forks (after r)
      = forks self ++ [nl +:+ oc +:+ ".set{ " +:+ d +:+ " }" +:+ nl]
  | ds =>
      forks (after r)
      = forks self
        ++ [nl +:+ oc +:+ ".into{ " +:+ join ";" ds +:+ " }" +:+ nl]
  end.
Proof.
  intros self1 r oc. subst self1 r oc.
  rewrite update_main_forks_run, set_channels_run.
  destruct self as [? ? ? ? ? ? ? ? ? ? ? ? ? ? ? ? ? ? mf ? ? ? ?].
  cbn. split; [reflexivity|]. split; [reflexivity|].
  unfold main_fork_statements. cbn.
  destruct (mf ++ sinks) as [|d [|d' ds]]; cbn;
    rewrite ?app_nil_r; reflexivity.
Qed.

(** The two readings of C3 on a step writing to [spades_out_3]. *)
Example set_channels_one_main_fork :
  forks (after (set_channels {[ "pid" := PInt 2 ]}
    (after (update_main_forks "abricate_in_3" demo_spades))))
  = forks demo_spades
    ++ [nl +:+ "spades_out_3.set{ abricate_in_3 }" +:+ nl].
Proof. vm_compute. reflexivity. Qed.

Example set_channels_two_main_forks :
  forks (after (set_channels {[ "pid" := PInt 2 ]}
    (after (for_each ["abricate_in_3"; "prokka_in_3"] update_main_forks
      demo_spades))))
  = forks demo_spades
    ++ [nl +:+ "spades_out_3.into{ abricate_in_3;prokka_in_3 }" +:+ nl].
Proof. vm_compute. reflexivity. Qed.

(** The constructor of [FastQC] declares its two status channels and
    starts with no status strings. *)
Lemma FastQC__init___status `{Interpreter} (template : string)
    (self : Process) :
  FastQC__init__ template = inr self →
  status_channels self = ["STATUS_fastqc"; "STATUS_report"]
  ∧ status_strs self = [].
Proof.
  unfold FastQC__init__, subclass_init, Process__init__.
  destruct (_set_template template) as [e|tpl_path]; [discriminate|].
  cbn. intros [= <-]. split; reflexivity.
Qed.

(** C6: [set_channels] appends to the status strings, in list order, each
    status base name qualified as [<base>_<pid>]; with position 5 and the
    status channels [["STATUS"]] that gives [["STATUS_5"]], and for a
    [FastQC] descriptor with position 2 it gives
    [["STATUS_fastqc_2"; "STATUS_report_2"]]. *)
Theorem set_channels_status_strs `{Interpreter}
    (self plain fastqc : Process) (kwargs kw5 kw2 : gmap string pyval)
    (template : string) :
  kw5 !! "pid" = Some (PInt 5) →
  status_channels plain = ["STATUS"] →
  status_strs plain = [] →
  kw2 !! "pid" = Some (PInt 2) →
  FastQC__init__ template = inr fastqc →
  status_strs (after (set_channels kwargs self))
  = status_strs self
    ++ ((λ base, base +:+ "_" +:+ py_str (default PNone (kwargs !! "pid")))
          <$> status_channels self)
  ∧ status_strs (after (set_channels kw5 plain)) = ["STATUS_5"]
  ∧ status_channels fastqc = ["STATUS_fastqc"; "STATUS_report"]
  ∧ status_strs (after (set_channels kw2 fastqc))
    = ["STATUS_fastqc_2"; "STATUS_report_2"].
Proof.
  intros Hkw5 Hplain Hnil Hkw2 Hfq.
  destruct (FastQC__init___status _ _ Hfq) as [Hch Hstrs].
  rewrite !set_channels_run. cbn.
  rewrite Hkw5, Hkw2, Hplain, Hnil, Hch, Hstrs.
  repeat split; reflexivity.
Qed.

(** The status strings of a plain step at position 5 and of [FastQC] at
    position 2, in the concrete interpreter. *)
Lemma set_channels_status_strs_witness :
  let plain := built (@Process__init__ demo_interpreter "trimmomatic") in
  let fastqc := built (@FastQC__init__ demo_interpreter "fastqc") in
  let kw5 : gmap string pyval := {[ "pid" := PInt 5 ]} in
  let kw2 : gmap string pyval := {[ "pid" := PInt 2 ]} in
  (kw5 !! "pid" = Some (PInt 5)
   ∧ status_channels plain = ["STATUS"]
   ∧ status_strs plain = []
   ∧ kw2 !! "pid" = Some (PInt 2)
   ∧ @FastQC__init__ demo_interpreter "fastqc" = inr fastqc)
  ∧ status_strs (after (set_channels kw5 plain)) = ["STATUS_5"]
  ∧ status_strs (after (set_channels kw2 fastqc))
    = ["STATUS_fastqc_2"; "STATUS_report_2"].
Proof.
  intros plain fastqc kw5 kw2.
  assert (H5 : kw5 !! "pid" = Some (PInt 5)) by (vm_compute; reflexivity).
  assert (Hc : status_channels plain = ["STATUS"])
    by (vm_compute; reflexivity).
  assert (Hs : status_strs plain = []) by (vm_compute; reflexivity).
  assert (H2 : kw2 !! "pid" = Some (PInt 2)) by (vm_compute; reflexivity).
  assert (Hf : @FastQC__init__ demo_interpreter "fastqc" = inr fastqc)
    by (vm_compute; reflexivity).
  split; [repeat split; assumption|].
  destruct (@set_channels_status_strs demo_interpreter demo_spades plain
              fastqc kw5 kw5 kw2 "fastqc" H5 Hc Hs H2 Hf)
    as (_ & Hplain & _ & Hfastqc).
  split; assumption.
Defined.

(** ** [set_channels] accumulates *)

Lemma occurrences_app (x : string) (l k : list string) :
  occurrences x (l ++ k) = occurrences x l + occurrences x k.
Proof.
  induction l as [|y l IH]; cbn; [reflexivity|]. rewrite IH. lia.
Qed.

Lemma occurrences_not_elem (x : string) (l : list string) :
  x ∉ l → occurrences x l = 0.
Proof.
  induction l as [|y l IH]; cbn; [reflexivity|].
  intros Hx. apply not_elem_of_cons in Hx as [Hne Hx].
  rewrite decide_False by assumption. rewrite IH by assumption. reflexivity.
Qed.

(** In a list without repetition a listed element is listed once. *)
Lemma occurrences_NoDup (x : string) (l : list string) :
  NoDup l → x ∈ l → occurrences x l = 1.
Proof.
  induction 1 as [|y l Hy Hl IH]; intros Hx.
  - apply elem_of_nil in Hx as [].
  - cbn. destruct (decide (x = y)) as [->|Hne].
    + rewrite occurrences_not_elem by assumption. reflexivity.
    + apply elem_of_cons in Hx as [Hx|Hx]; [contradiction|].
      rewrite IH by assumption. reflexivity.
Qed.

Lemma length_append (a b : string) :
  String.length (a +:+ b) = String.length a + String.length b.
Proof.
  induction a as [|c a IH]; simpl; [reflexivity|]. f_equal. exact IH.
Qed.

(** Two base names with the same qualified name are the same. *)
Lemma qualified_inj (pidv : pyval) : Inj (=) (=) (qualified pidv).
Proof.
  unfold qualified. generalize ("_" +:+ py_str pidv). intros sfx a.
  induction a as [|c a IH]; intros [|c' b] Heq.
  - reflexivity.
  - apply (f_equal String.length) in Heq.
    rewrite !length_append in Heq. simpl String.length in Heq. lia.
  - apply (f_equal String.length) in Heq.
    rewrite !length_append in Heq. simpl String.length in Heq. lia.
  - change (String c (a +:+ sfx) = String c' (b +:+ sfx)) in Heq.
    injection Heq as -> Heq. f_equal. apply IH, Heq.
Qed.

Lemma occurrences_qualified (pidv : pyval) (b : string) (l : list string) :
  occurrences (qualified pidv b) (qualified pidv <$> l) = occurrences b l.
Proof.
  induction l as [|y l IH]; cbn; [reflexivity|]. rewrite IH.
  destruct (decide (b = y)) as [->|Hne].
  - rewrite decide_True by reflexivity. reflexivity.
  - rewrite decide_False; [reflexivity|].
    intros Heq. apply Hne, (qualified_inj pidv), Heq.
Qed.

(** C10: a second [set_channels] call with the same position and the
    same non-empty main forks appends once more what the first call
    appended: the qualified status names and the broadcast statement are
    then listed twice (also in the ["forks"] value of the rebuilt
    context), while the attributes the call reads are left as they were.
    On a descriptor that had no status strings and no forks before, each
    qualified name of a repetition-free status-channel list and the
    broadcast statement occur exactly twice. *)
Theorem set_channels_twice_accumulates
    (self : Process) (kwargs : gmap string pyval) :
  main_forks self ≠ [] →
  let pidv := default PNone (kwargs !! "pid") in
  let names := qualified pidv <$> status_channels self in
  let stmt :=
    spec_fork_statement (py_str (py_opt (output_channel self)))
      (main_forks self) in
  let r1 := set_channels kwargs self in
  let r2 := set_channels kwargs (after r1) in
  outcome r1 = inr tt ∧ outcome r2 = inr tt
  ∧ status_strs (after r1) = status_strs self ++ names
  ∧ forks (after r1) = forks self ++ [stmt]
  ∧ status_strs (after r2) = status_strs self ++ names ++ names
  ∧ forks (after r2) = forks self ++ [stmt; stmt]
  ∧ context_value (after r2) "forks"
    = Some (PStr (join nl (forks self ++ [stmt; stmt])))
  ∧ main_forks (after r2) = main_forks self
  ∧ status_channels (after r2) = status_channels self
  ∧ output_channel (after r2) = output_channel self
  ∧ (status_strs self = [] → NoDup (status_channels self) →
     ∀ base, base ∈ status_channels self →
       occurrences (qualified pidv base) (status_strs (after r2)) = 2)
  ∧ (forks self = [] → occurrences stmt (forks (after r2)) = 2).
Proof.
  intros Hmf pidv names stmt r1 r2. subst r1 r2.
  assert (Hstmts : main_fork_statements self = [stmt]).
  { unfold main_fork_statements, stmt.
    destruct (main_forks self); [contradiction|reflexivity]. }
  destruct (set_channels_preserves kwargs self) as (Hmf1 & Hsc1 & Hoc1 & Hms1).
  destruct (set_channels_preserves kwargs (after (set_channels kwargs self)))
    as (Hmf2 & Hsc2 & Hoc2 & _).
  rewrite set_channels_context_forks, !set_channels_outcome,
    !set_channels_forks, !set_channels_status.
  rewrite Hmf2, Hsc2, Hoc2, Hmf1, Hsc1, Hoc1, Hms1, Hstmts.
  fold pidv names. rewrite <- !app_assoc.
  change ([stmt] ++ [stmt]) with [stmt; stmt].
  repeat (split; [reflexivity|]).
  split.
  - intros Hnil Hnd base Hbase. rewrite Hnil. simpl app.
    rewrite occurrences_app. unfold names.
    rewrite occurrences_qualified, occurrences_NoDup by assumption.
    reflexivity.
  - intros ->. simpl. rewrite decide_True by reflexivity. reflexivity.
Qed.

(** Two calls on the [Spades] step with one broadcast destination. *)
Lemma set_channels_twice_accumulates_witness :
  let kwargs : gmap string pyval := {[ "pid" := PInt 2 ]} in
  let stmt := nl +:+ "spades_out_3.set{ abricate_in_3 }" +:+ nl in
  let r2 := set_channels kwargs (after (set_channels kwargs demo_forked)) in
  main_forks demo_forked ≠ []
  ∧ status_strs (after r2) = ["STATUS_2"; "STATUS_2"]
  ∧ forks (after r2) = [stmt; stmt]
  ∧ context_value (after r2) "forks" = Some (PStr (join nl [stmt; stmt])).
Proof.
  intros kwargs stmt r2.
  assert (Hmf : main_forks demo_forked ≠ []) by (vm_compute; discriminate).
  split; [exact Hmf|].
  destruct (set_channels_twice_accumulates demo_forked kwargs Hmf)
    as (_ & _ & _ & _ & Hstrs & Hforks & Hctx & _).
  split; [exact Hstrs|]. split; [exact Hforks|exact Hctx].
Defined.

(** ** [set_secondary_channel] *)

Section SecondaryChannel.
Context `{Interpreter}.

(** A source that begins with [MAIN] reaches the read of the attribute
    [_output_channel] first, which raises before anything is changed. *)
Lemma set_secondary_channel_main_run (source : string)
    (channel_list : list string) (self : Process) :
  String.prefix "MAIN" source = true →
  set_secondary_channel source channel_list self
  = (inl (AttributeError "_output_channel"), self).
Proof.
  intros Hmain. unfold set_secondary_channel. rewrite Hmain. reflexivity.
Qed.

(** Any other source is qualified by the position; the statement is
    appended, and then the context is refreshed, which raises when there
    is no context. *)
Lemma set_secondary_channel_side_run (source : string)
    (channel_list : list string) (self : Process) :
  String.prefix "MAIN" source = false →
  let src := source +:+ "_" +:+ py_str (pid self) in
  let fks := forks self ++ [spec_fork_statement src (set_iter channel_list)] in
  set_secondary_channel source channel_list self
  = match _context self with
    | Some ctx =>
        (inr tt,
         with_context (Some ({[ "forks" := PStr (join nl fks) ]} ∪ ctx))
           (with_forks fks self))
    | None =>
        (inl (TypeError "'NoneType' object is not a mapping"),
         with_forks fks self)
    end.
Proof.
  intros Hside. unfold set_secondary_channel. rewrite Hside.
  erewrite bind_ok by reflexivity. cbv zeta.
  destruct self as [? ? ? ? ? ? ? ? ? ? ? ? ? ? ? ? ? ? ? ? ? ctx ?].
  destruct (set_iter channel_list) as [|d [|d' ds]], ctx; reflexivity.
Qed.

(** [list(set(l))] of a one-element list is that list. *)
Lemma set_iter_singleton (x : string) :
  set_iter_spec → set_iter [x] = [x].
Proof.
  intros Hspec. destruct (Hspec [x]) as [Hnd Hin].
  destruct (set_iter [x]) as [|a l].
  - exfalso. apply (not_elem_of_nil x), Hin, list_elem_of_singleton.
    reflexivity.
  - assert (a = x) as ->
      by (apply list_elem_of_singleton, Hin; left).
    apply NoDup_cons in Hnd as [Hx _]. f_equal.
    destruct l as [|b l]; [reflexivity|]. exfalso.
    assert (b = x) as ->
      by (apply list_elem_of_singleton, Hin; right; left).
    apply Hx. left.
Qed.

Lemma occurrences_elem (x : string) (l : list string) :
  (1 ≤ occurrences x l)%nat → x ∈ l.
Proof.
  induction l as [|y l IH]; cbn; [lia|].
  destruct (decide (x = y)) as [->|Hne]; [left|].
  intros Hl. right. apply IH. lia.
Qed.

End SecondaryChannel.

(** C1: with the source [MAIN_2] the call raises [AttributeError] at the
    read of [self._output_channel], an attribute that is never assigned,
    and leaves the descriptor as it was: the output channel of the
    context is not renamed and no fork statement is added. *)
Theorem set_secondary_channel_main_raises `{Interpreter}
    (self : Process) (channel_list : list string) :
  let r := set_secondary_channel "MAIN_2" channel_list self in
  outcome r = inl (AttributeError "_output_channel")
  ∧ after r = self
  ∧ context_value (after r) "output_channel"
    = context_value self "output_channel"
  ∧ forks (after r) = forks self.
Proof.
  intros r. subst r.
  rewrite set_secondary_channel_main_run by reflexivity.
  repeat split; reflexivity.
Qed.

(** C1 at the input of the claim: the context still holds
    [spades_out_3], not [_spades_out_3]. *)
Example set_secondary_channel_main_spades :
  let r := @set_secondary_channel demo_interpreter "MAIN_2"
             ["abricate_in_3"] demo_spades in
  output_channel demo_spades = Some "spades_out_3"
  ∧ outcome r = inl (AttributeError "_output_channel")
  ∧ context_value (after r) "output_channel" = Some (PStr "spades_out_3")
  ∧ forks (after r) = [].
Proof. vm_compute. repeat split; reflexivity. Qed.

(** C4: after [set_channels] with position 7, the call with the source
    [SIDE_phred] and the destinations [["trim_in_8"]] returns, appends
    exactly the statement of the source [SIDE_phred_7] set into
    [trim_in_8], and the ["forks"] value of the context is the join of the
    fork list that ends with it. *)
Theorem set_secondary_channel_side_phred `{Interpreter}
    (self : Process) (kwargs : gmap string pyval) :
  set_iter_spec →
  kwargs !! "pid" = Some (PInt 7) →
  let self7 := after (set_channels kwargs self) in
  let r := set_secondary_channel "SIDE_phred" ["trim_in_8"] self7 in
  let stmt := nl +:+ "SIDE_phred_7.set{ trim_in_8 }" +:+ nl in
  pid self7 = PInt 7
  ∧ outcome r = inr tt
  ∧ forks (after r) = forks self7 ++ [stmt]
  ∧ context_value (after r) "forks"
    = Some (PStr (join nl (forks self7 ++ [stmt]))).
Proof.
  intros Hspec Hpid self7 r stmt.
  assert (Hp : pid self7 = PInt 7).
  { unfold self7. rewrite set_channels_run. cbn. rewrite Hpid. reflexivity. }
  assert (Hctx : is_Some (_context self7)).
  { unfold self7. rewrite set_channels_run. cbn. eauto. }
  destruct Hctx as [ctx Hctx].
  subst r. rewrite set_secondary_channel_side_run by reflexivity.
  rewrite Hctx, Hp, set_iter_singleton by assumption.
  split; [reflexivity|]. split; [reflexivity|].
  split; [reflexivity|].
  unfold context_value. cbn. apply lookup_union_Some_l, lookup_singleton_eq.
Qed.

(** The concrete interpreter lists a set as Python promises. *)
Lemma demo_set_iter_spec : @set_iter_spec demo_interpreter.
Proof.
  intros l. split.
  - apply NoDup_remove_dups.
  - intros x. apply elem_of_remove_dups.
Qed.

(** The side channel of an [IntegrityCoverage] step at position 7. *)
Lemma set_secondary_channel_side_phred_witness :
  let kwargs : gmap string pyval := {[ "pid" := PInt 7 ]} in
  let self := built (@IntegrityCoverage__init__ demo_interpreter
                       "integrity_coverage") in
  let r := @set_secondary_channel demo_interpreter "SIDE_phred"
             ["trim_in_8"] (after (set_channels kwargs self)) in
  (@set_iter_spec demo_interpreter ∧ kwargs !! "pid" = Some (PInt 7))
  ∧ outcome r = inr tt
  ∧ forks (after r) = [nl +:+ "SIDE_phred_7.set{ trim_in_8 }" +:+ nl]
  ∧ context_value (after r) "forks"
    = Some (PStr (nl +:+ "SIDE_phred_7.set{ trim_in_8 }" +:+ nl)).
Proof.
  intros kwargs self r.
  assert (Hpid : kwargs !! "pid" = Some (PInt 7))
    by (vm_compute; reflexivity).
  split; [split; [exact demo_set_iter_spec|exact Hpid]|].
  destruct (@set_secondary_channel_side_phred demo_interpreter self kwargs
              demo_set_iter_spec Hpid) as (_ & Hout & Hforks & Hctx).
  split; [exact Hout|]. split; [exact Hforks|exact Hctx].
Defined.

(** C5: for a source that does not begin with [MAIN], the statement the
    call appends is built from a destination list in which a channel
    name given twice is listed exactly once (and which has the same
    members as the list given); this holds whether or not the refresh of
    the context that follows succeeds.  For a source that begins with
    [MAIN] the call raises [AttributeError] at the read of
    [self._output_channel] and appends no statement at all. *)
Theorem set_secondary_channel_deduplicates `{Interpreter}
    (source : string) (channel_list : list string) (d : string)
    (self : Process) :
  set_iter_spec →
  (2 ≤ occurrences d channel_list)%nat →
  let r := set_secondary_channel source channel_list self in
  if String.prefix "MAIN" source then
    outcome r = inl (AttributeError "_output_channel")
    ∧ forks (after r) = forks self
  else
    ∃ dests : list string,
      forks (after r)
      = forks self
        ++ [spec_fork_statement (source +:+ "_" +:+ py_str (pid self)) dests]
      ∧ occurrences d dests = 1
      ∧ ∀ x : string, x ∈ dests ↔ x ∈ channel_list.
Proof.
  intros Hspec Htwice r. subst r.
  destruct (String.prefix "MAIN" source) eqn:Hsrc.
  - rewrite set_secondary_channel_main_run by assumption.
    split; reflexivity.
  - rewrite set_secondary_channel_side_run by assumption.
    destruct (Hspec channel_list) as [Hnd Hin].
    exists (set_iter channel_list).
    split; [destruct (_context self), self; reflexivity|].
    split; [|exact Hin].
    apply occurrences_NoDup; [exact Hnd|].
    apply Hin, occurrences_elem. lia.
Qed.

(** A destination given twice, with a main and with a side source. *)
Lemma set_secondary_channel_deduplicates_witness :
  let twice := ["trim_in_8"; "spades_in_9"; "trim_in_8"] in
  let main := @set_secondary_channel demo_interpreter "MAIN_2" twice
                demo_spades in
  let side := @set_secondary_channel demo_interpreter "SIDE_max_len" twice
                demo_integrity in
  (@set_iter_spec demo_interpreter
   ∧ (2 ≤ occurrences "trim_in_8" twice)%nat)
  ∧ (outcome main = inl (AttributeError "_output_channel")
     ∧ forks (after main) = forks demo_spades)
  ∧ ∃ dests : list string,
      forks (after side)
      = forks demo_integrity ++ [spec_fork_statement "SIDE_max_len_7" dests]
      ∧ occurrences "trim_in_8" dests = 1
      ∧ ∀ x : string, x ∈ dests ↔ x ∈ twice.
Proof.
  intros twice main side.
  assert (Htwice : (2 ≤ occurrences "trim_in_8" twice)%nat)
    by (vm_compute; lia).
  split; [split; [exact demo_set_iter_spec|exact Htwice]|].
  split.
  - exact (@set_secondary_channel_deduplicates demo_interpreter "MAIN_2"
             twice "trim_in_8" demo_spades demo_set_iter_spec Htwice).
  - exact (@set_secondary_channel_deduplicates demo_interpreter
             "SIDE_max_len" twice "trim_in_8" demo_integrity
             demo_set_iter_spec Htwice).
Defined.

(** The de-duplicated statement of the concrete interpreter. *)
Example set_secondary_channel_twice_given :
  forks (after (@set_secondary_channel demo_interpreter "SIDE_max_len"
                  ["trim_in_8"; "spades_in_9"; "trim_in_8"] demo_integrity))
  = [nl +:+ "SIDE_max_len_7.into{ spades_in_9;trim_in_8 }" +:+ nl].
Proof. vm_compute. reflexivity. Qed.

(** ** [Status.set_status_channels] *)

(** C7: with a non-empty list the call returns and the context becomes
    the one entry ["status_channels"], whose value is the only name when
    one is given, and otherwise the first name, [.mix(], the remaining
    names joined by commas in input order, and [)]. *)
Theorem set_status_channels_value
    (self : Process) (first : string) (rest : list string) :
  let r := set_status_channels (first :: rest) self in
  let one := set_status_channels ["STATUS_1"] self in
  let three := set_status_channels ["STATUS_1"; "STATUS_2"; "STATUS_3"] self in
  outcome r = inr tt
  ∧ _context (after r)
    = Some {[ "status_channels" :=
                PStr (match rest with
                      | [] => first
                      | _ => first +:+ ".mix(" +:+ join "," rest +:+ ")"
                      end) ]}
  ∧ context_value (after one) "status_channels" = Some (PStr "STATUS_1")
  ∧ context_value (after three) "status_channels"
    = Some (PStr "STATUS_1.mix(STATUS_2,STATUS_3)").
Proof.
  intros r one three. subst r one three.
  split; [destruct rest; reflexivity|].
  split; [destruct rest; reflexivity|].
  split; vm_compute; reflexivity.
Qed.

(** ** Construction *)

Section Construction.
Context `{Interpreter}.

Lemma _set_template_missing (template : string) :
  path_exists (resolved_path template) = false →
  _set_template template = inl (MissingTemplate (resolved_path template)).
Proof.
  unfold _set_template, resolved_path. intros ->. reflexivity.
Qed.

Lemma _set_template_found (template : string) :
  path_exists (resolved_path template) = true →
  _set_template template = inr (resolved_path template).
Proof.
  unfold _set_template, resolved_path. intros ->. reflexivity.
Qed.

(** A constructor of the module either raises what [Process.__init__]
    raises, or returns a fresh descriptor. *)
Lemma constructors_run (init : string → exn + Process) (template : string) :
  init ∈ constructors →
  match _set_template template with
  | inl e => init template = inl e
  | inr tpl_path =>
      tpl_path = resolved_path template
      ∧ ∃ self, init template = inr self ∧ fresh template self
  end.
Proof.
  intros Hin. unfold constructors in Hin.
  assert (Hpath : ∀ p, _set_template template = inr p →
                       p = resolved_path template).
  { unfold _set_template, resolved_path.
    destruct (path_exists _); [intros p [= <-]; reflexivity|discriminate]. }
  repeat (apply elem_of_cons in Hin as [->|Hin]);
    [..|apply elem_of_nil in Hin as []];
    unfold StatusCompiler__init__, Status__init__, Init__init__,
      IntegrityCoverage__init__, SeqTyping__init__, PathoTyping__init__,
      CheckCoverage__init__, FastQC__init__, Trimmomatic__init__,
      FastqcTrimmomatic__init__, Skesa__init__, Spades__init__,
      ProcessSpades__init__, AssemblyMapping__init__, Pilon__init__,
      Mlst__init__, Abricate__init__, Prokka__init__, Chewbbaca__init__,
      TraceCompiler__init__, subclass_init, Process__init__;
    destruct (_set_template template) as [e|p] eqn:Hset;
    try reflexivity;
    pose proof (Hpath p eq_refl) as ->;
    (split; [reflexivity|]);
    (eexists; split; [reflexivity|]);
    repeat split; reflexivity.
Qed.

End Construction.

(** C2: whichever class is instantiated, when no file exists at the
    resolved path [<templates directory>/<template>.nf] the construction
    raises the missing-template exception and yields no descriptor, and
    when the file exists the construction returns a descriptor that
    records the template and the resolved path. *)
Theorem construction_requires_template `{Interpreter}
    (init : string → exn + Process) (name : string) :
  init ∈ constructors →
  (path_exists (resolved_path name) = false →
   init name = inl (MissingTemplate (resolved_path name)))
  ∧ (path_exists (resolved_path name) = true →
     ∃ self : Process,
       init name = inr self
       ∧ template self = name
       ∧ _template_path self = Some (resolved_path name)).
Proof.
  intros Hin. pose proof (constructors_run init name Hin) as Hrun.
  split; intros Hex.
  - rewrite _set_template_missing in Hrun by assumption. exact Hrun.
  - rewrite _set_template_found in Hrun by assumption.
    destruct Hrun as (_ & self & Hself & Htpl & Hpath & _).
    exists self. repeat split; assumption.
Qed.

(** A template that is not in the concrete file system, and one that
    is. *)
Lemma construction_requires_template_witness :
  (@Process__init__ demo_interpreter ∈ @constructors demo_interpreter
   ∧ @path_exists demo_interpreter
       (@resolved_path demo_interpreter "unknown_tool") = false
   ∧ @path_exists demo_interpreter
       (@resolved_path demo_interpreter "fastqc") = true)
  ∧ @Process__init__ demo_interpreter "unknown_tool"
    = inl (MissingTemplate "/opt/generator/templates/unknown_tool.nf")
  ∧ ∃ self : Process,
      @Process__init__ demo_interpreter "fastqc" = inr self
      ∧ template self = "fastqc"
      ∧ _template_path self = Some "/opt/generator/templates/fastqc.nf".
Proof.
  assert (Hin : @Process__init__ demo_interpreter
                ∈ @constructors demo_interpreter)
    by (apply elem_of_cons; left; reflexivity).
  assert (Hno : @path_exists demo_interpreter
                  (@resolved_path demo_interpreter "unknown_tool") = false)
    by (vm_compute; reflexivity).
  assert (Hyes : @path_exists demo_interpreter
                   (@resolved_path demo_interpreter "fastqc") = true)
    by (vm_compute; reflexivity).
  split; [repeat split; assumption|].
  split.
  - exact (proj1 (@construction_requires_template demo_interpreter _
                    "unknown_tool" Hin) Hno).
  - exact (proj2 (@construction_requires_template demo_interpreter _
                    "fastqc" Hin) Hyes).
Defined.

(** ** [template_str] *)

Section TemplateStr.
Context `{Interpreter}.

(** Without a context the property raises and changes nothing. *)
Lemma template_str_no_context (self : Process) :
  _context self = None →
  template_str self = (inl ContextNotSet, self).
Proof.
  intros Hctx. unfold template_str.
  erewrite bind_ok by reflexivity. rewrite Hctx. reflexivity.
Qed.

(** With a context that has an entry, whatever the property does, it is
    not the exception of the missing context. *)
Lemma template_str_populated (self : Process) (ctx : gmap string pyval)
    (key : string) (v : pyval) :
  _context self = Some ctx → ctx !! key = Some v →
  outcome (template_str self) ≠ inl ContextNotSet.
Proof.
  intros Hctx Hkey. unfold template_str.
  erewrite bind_ok by reflexivity. rewrite Hctx.
  rewrite bool_decide_eq_false_2.
  2:{ intros Hsize. apply map_size_empty_iff in Hsize.
      rewrite Hsize, lookup_empty in Hkey. discriminate. }
  erewrite bind_ok by reflexivity.
  destruct (_template_path self) as [tpl_path|]; [|discriminate].
  destruct (render tpl_path ctx); discriminate.
Qed.

End TemplateStr.

(** ** [Init.set_raw_inputs] *)

Lemma set_raw_inputs_loop_run (values : list raw_input_record)
    (primary_inputs : list string) (self : Process) :
  set_raw_inputs_loop values primary_inputs self
  = (inr (primary_inputs ++ (ri_channel_str <$> values)),
     with_forks (forks self ++ (raw_fork_statement <$> values)) self).
Proof.
  revert primary_inputs self.
  induction values as [|el values IH]; intros primary_inputs self.
  - destruct self. cbn. rewrite !app_nil_r. reflexivity.
  - cbn [set_raw_inputs_loop].
    erewrite bind_ok with
      (a := tt)
      (self' := with_forks (forks self ++ [raw_fork_statement el]) self).
    2:{ unfold raw_fork_statement.
        destruct (ri_raw_forks el) as [|t [|t' ts]]; reflexivity. }
    rewrite IH. destruct self. cbn. rewrite <- !app_assoc. reflexivity.
Qed.

Lemma set_raw_inputs_run (raw_input : list (string * raw_input_record))
    (self : Process) :
  let fks := forks self ++ (raw_fork_statement <$> raw_input.*2) in
  set_raw_inputs raw_input self
  = match _context self with
    | Some ctx =>
        (inr tt,
         with_context (Some (
           ({[ "forks" := PStr (join nl fks);
               "main_inputs" :=
                 PStr (join nl (ri_channel_str <$> raw_input.*2)) ]}
            : gmap string pyval) ∪ ctx))
           (with_forks fks self))
    | None =>
        (inl (TypeError "'NoneType' object is not a mapping"),
         with_forks fks self)
    end.
Proof.
  intros fks. unfold set_raw_inputs.
  erewrite bind_ok by apply set_raw_inputs_loop_run.
  erewrite bind_ok by reflexivity.
  destruct self as [? ? ? ? ? ? ? ? ? ? ? ? ? ? ? ? ? ? ? ? ? ctx ?].
  destruct ctx; reflexivity.
Qed.

(** ** Rendering needs a context *)

Section Rendering.
Context `{Interpreter}.

(** After [set_channels] the rendered text never raises the exception of
    the missing context. *)
Lemma template_str_after_set_channels (self : Process)
    (kwargs : gmap string pyval) :
  outcome (template_str (after (set_channels kwargs self)))
  ≠ inl ContextNotSet.
Proof.
  pose proof (set_channels_context_forks kwargs self) as Hforks.
  unfold context_value in Hforks.
  destruct (_context (after (set_channels kwargs self))) as [ctx|] eqn:Hctx;
    [|discriminate].
  eapply template_str_populated; [exact Hctx|exact Hforks].
Qed.

(** Nor after [set_status_channels] with a non-empty list. *)
Lemma template_str_after_set_status_channels (self : Process)
    (first : string) (rest : list string) :
  outcome (template_str (after (set_status_channels (first :: rest) self)))
  ≠ inl ContextNotSet.
Proof.
  destruct rest;
    (eapply template_str_populated with (key := "status_channels");
     [reflexivity|apply lookup_singleton_eq]).
Qed.

(** After [set_raw_inputs] the rendered text raises the exception of the
    missing context exactly when the descriptor had no context before
    the call (the call then raised and set none). *)
Lemma template_str_after_set_raw_inputs (self : Process)
    (raw_input : list (string * raw_input_record)) :
  outcome (template_str (after (set_raw_inputs raw_input self)))
  = inl ContextNotSet
  ↔ _context self = None.
Proof.
  rewrite set_raw_inputs_run.
  destruct (_context self) as [ctx|] eqn:Hctx.
  - split; [|discriminate]. intros Hraise. exfalso.
    eapply template_str_populated with (key := "forks"); [| |exact Hraise].
    + reflexivity.
    + apply lookup_union_Some_l, lookup_insert_eq.
  - split; [reflexivity|]. intros _.
    rewrite template_str_no_context; [reflexivity|].
    destruct self. exact Hctx.
Qed.

(** The same for [set_secondary_inputs]. *)
Lemma template_str_after_set_secondary_inputs (self : Process)
    (channel_dict : list (string * string)) :
  outcome (template_str (after (set_secondary_inputs channel_dict self)))
  = inl ContextNotSet
  ↔ _context self = None.
Proof.
  unfold set_secondary_inputs, context_merge.
  erewrite bind_ok by reflexivity.
  destruct (_context self) as [ctx|] eqn:Hctx.
  - split; [|discriminate]. intros Hraise. exfalso.
    eapply template_str_populated with (key := "secondary_inputs");
      [| |exact Hraise].
    + reflexivity.
    + apply lookup_union_Some_l, lookup_singleton_eq.
  - split; [reflexivity|]. intros _.
    rewrite template_str_no_context; [reflexivity|exact Hctx].
Qed.

End Rendering.

(** C8, as stated, fails for the operations of the entry point: called on
    a freshly constructed descriptor, [set_raw_inputs] and
    [set_secondary_inputs] raise [TypeError] and set no context, so the
    rendered text still raises the exception of the missing context
    after they have run. *)
Lemma template_str_after_init_operations_fresh :
  let self := built (@Init__init__ demo_interpreter "init") in
  let raw := set_raw_inputs demo_raw_one self in
  let secondary :=
    set_secondary_inputs
      [("adapters", "IN_adapters = Channel.value(params.adapters)")] self in
  @Init__init__ demo_interpreter "init" = inr self
  ∧ outcome raw = inl (TypeError "'NoneType' object is not a mapping")
  ∧ ¬ (outcome (@template_str demo_interpreter (after raw))
       ≠ inl ContextNotSet)
  ∧ outcome secondary = inl (TypeError "'NoneType' object is not a mapping")
  ∧ ¬ (outcome (@template_str demo_interpreter (after secondary))
       ≠ inl ContextNotSet).
Proof.
  vm_compute.
  split; [reflexivity|]. split; [reflexivity|].
  split; [intros Hne; apply Hne; reflexivity|].
  split; [reflexivity|]. intros Hne. apply Hne. reflexivity.
Qed.

(** C8, amended: on a descriptor as any constructor of the module returns
    it, the rendered text raises the exception of the missing context.
    After [set_channels], and after [set_status_channels] with a
    non-empty list, on any descriptor, it does not raise that exception.
    After [set_raw_inputs] or [set_secondary_inputs] it raises that
    exception exactly when the descriptor had no context before the
    call: these two populate a context that exists and establish none,
    so on the freshly constructed descriptor the rendered text still
    raises the exception after them. *)
Theorem template_str_requires_context `{Interpreter}
    (init : string → exn + Process) (name : string)
    (self other : Process) (kwargs : gmap string pyval)
    (first : string) (rest : list string)
    (raw_input : list (string * raw_input_record))
    (channel_dict : list (string * string)) :
  init ∈ constructors →
  init name = inr self →
  outcome (template_str self) = inl ContextNotSet
  ∧ outcome (template_str (after (set_channels kwargs other)))
    ≠ inl ContextNotSet
  ∧ outcome (template_str
               (after (set_status_channels (first :: rest) other)))
    ≠ inl ContextNotSet
  ∧ (outcome (template_str (after (set_raw_inputs raw_input other)))
     = inl ContextNotSet
     ↔ _context other = None)
  ∧ (outcome (template_str
                (after (set_secondary_inputs channel_dict other)))
     = inl ContextNotSet
     ↔ _context other = None)
  ∧ outcome (template_str (after (set_raw_inputs raw_input self)))
    = inl ContextNotSet
  ∧ outcome (template_str
               (after (set_secondary_inputs channel_dict self)))
    = inl ContextNotSet.
Proof.
  intros Hin Hself.
  assert (Hfresh : _context self = None).
  { pose proof (constructors_run init name Hin) as Hrun.
    rewrite Hself in Hrun.
    destruct (_set_template name) as [e|tpl_path]; [discriminate|].
    destruct Hrun as (_ & self' & [= <-] & Hfr). apply Hfr. }
  split; [rewrite template_str_no_context by exact Hfresh; reflexivity|].
  split; [apply template_str_after_set_channels|].
  split; [apply template_str_after_set_status_channels|].
  split; [apply template_str_after_set_raw_inputs|].
  split; [apply template_str_after_set_secondary_inputs|].
  split.
  - apply template_str_after_set_raw_inputs, Hfresh.
  - apply template_str_after_set_secondary_inputs, Hfresh.
Qed.

(** The entry point, fresh and after [set_channels]. *)
Lemma template_str_requires_context_witness :
  let self := built (@Init__init__ demo_interpreter "init") in
  let kwargs : gmap string pyval := {[ "pid" := PInt 0 ]} in
  (@Init__init__ demo_interpreter ∈ @constructors demo_interpreter
   ∧ @Init__init__ demo_interpreter "init" = inr self)
  ∧ outcome (@template_str demo_interpreter self) = inl ContextNotSet
  ∧ outcome (@template_str demo_interpreter
               (after (set_channels kwargs self))) ≠ inl ContextNotSet
  ∧ outcome (@template_str demo_interpreter
               (after (set_raw_inputs demo_raw_one self)))
    = inl ContextNotSet
  ∧ outcome (@template_str demo_interpreter
               (after (set_raw_inputs demo_raw_one demo_init)))
    ≠ inl ContextNotSet.
Proof.
  intros self kwargs.
  assert (Hin : @Init__init__ demo_interpreter
                ∈ @constructors demo_interpreter)
    by (do 2 (apply elem_of_cons; right); apply elem_of_cons; left;
        reflexivity).
  assert (Hself : @Init__init__ demo_interpreter "init" = inr self)
    by (vm_compute; reflexivity).
  split; [split; assumption|].
  destruct (@template_str_requires_context demo_interpreter _ "init" self
              demo_init kwargs "STATUS_1" [] demo_raw_one [] Hin Hself)
    as (Hfresh & _ & _ & Hraw & _ & Hraw_fresh & _).
  split; [exact Hfresh|].
  split; [apply (@template_str_after_set_channels demo_interpreter)|].
  split; [exact Hraw_fresh|].
  intros Hraise. apply Hraw in Hraise.
  apply (f_equal (λ c : option (gmap string pyval),
                    match c with Some _ => true | None => false end))
    in Hraise.
  vm_compute in Hraise. discriminate.
Defined.

(** ** [Init.set_raw_inputs] needs a context *)




(** * Further properties of the module *)

(** ** Channel names and the raw channel of a step *)

(** [set_main_channel_names] returns, names the channels after the
    template and the two suffixes, records the lane, and a later call
    replaces what an earlier one set: nothing of the first call is left.
    The context is not touched. *)
Theorem set_main_channel_names_last_wins
    (self : Process) (i1 o1 l1 i2 o2 l2 : pyval) :
  let r1 := set_main_channel_names i1 o1 l1 self in
  let r2 := set_main_channel_names i2 o2 l2 (after r1) in
  outcome r2 = inr tt
  ∧ after r2 = after (set_main_channel_names i2 o2 l2 self)
  ∧ input_channel (after r2) = Some (template self +:+ "_in_" +:+ py_str i2)
  ∧ output_channel (after r2)
    = Some (template self +:+ "_out_" +:+ py_str o2)
  ∧ lane (after r2) = l2
  ∧ _context (after r2) = _context self
  ∧ forks (after r2) = forks self
  ∧ main_forks (after r2) = main_forks self
  ∧ status_strs (after r2) = status_strs self.
Proof.
  intros r1 r2. subst r1 r2. destruct self. repeat split; reflexivity.
Qed.

(** [get_user_channel] leaves the descriptor alone.  For the input types
    [fastq] and [assembly] it returns a dictionary with exactly four
    entries, the current input channel and the three entries of the raw
    mapping; for any other input type, and for none, it returns [None]. *)
Theorem get_user_channel_result (self : Process) :
  let r := get_user_channel self in
  after r = self
  ∧ (input_type self = Some "fastq" →
     ∃ m : gmap string pyval,
       outcome r = inr (Some m)
       ∧ m !! "input_channel" = Some (py_opt (input_channel self))
       ∧ m !! "params" = Some (PStr "fastq")
       ∧ m !! "channel" = Some (PStr "IN_fastq_raw")
       ∧ m !! "channel_str"
         = Some (PStr "IN_fastq_raw = Channel.fromFilePairs(params.fastq)")
       ∧ size m = 4)
  ∧ (input_type self = Some "assembly" →
     ∃ m : gmap string pyval,
       outcome r = inr (Some m)
       ∧ m !! "input_channel" = Some (py_opt (input_channel self))
       ∧ m !! "params" = Some (PStr "fasta")
       ∧ m !! "channel" = Some (PStr "IN_fasta_raw")
       ∧ m !! "channel_str"
         = Some (PStr "IN_fasta_raw = Channel.fromFilePairs(params.fasta)")
       ∧ size m = 4)
  ∧ (input_type self ≠ Some "fastq" → input_type self ≠ Some "assembly" →
     outcome r = inr None).
Proof.
  intros r. subst r. unfold get_user_channel.
  erewrite bind_ok by reflexivity.
  split; [destruct (input_type self ≫= _); reflexivity|].
  split; [|split].
  - intros ->. eexists. split; [reflexivity|].
    generalize (py_opt (input_channel self)). intros v.
    repeat split; vm_compute; reflexivity.
  - intros ->. eexists. split; [reflexivity|].
    generalize (py_opt (input_channel self)). intros v.
    repeat split; vm_compute; reflexivity.
  - intros Hfq Has. destruct (input_type self) as [kind|]; [|reflexivity].
    cbn. unfold RAW_MAPPING.
    rewrite lookup_insert_ne by congruence.
    rewrite lookup_singleton_ne by congruence. reflexivity.
Qed.

(** The input types of a [FastQC] step, of an [AssemblyMapping]-like
    assembly step and of the entry point. *)
Lemma get_user_channel_result_witness :
  let fastqc := built (@FastQC__init__ demo_interpreter "fastqc") in
  let spades := with_input_type (Some "assembly") demo_spades in
  (input_type fastqc = Some "fastq"
   ∧ input_type spades = Some "assembly"
   ∧ input_type demo_init ≠ Some "fastq"
   ∧ input_type demo_init ≠ Some "assembly")
  ∧ (∃ m : gmap string pyval,
       outcome (get_user_channel fastqc) = inr (Some m)
       ∧ m !! "channel" = Some (PStr "IN_fastq_raw"))
  ∧ (∃ m : gmap string pyval,
       outcome (get_user_channel spades) = inr (Some m)
       ∧ m !! "channel" = Some (PStr "IN_fasta_raw"))
  ∧ outcome (get_user_channel demo_init) = inr None.
Proof.
  intros fastqc spades.
  assert (H1 : input_type fastqc = Some "fastq") by (vm_compute; reflexivity).
  assert (H2 : input_type spades = Some "assembly")
    by (vm_compute; reflexivity).
  assert (H3 : input_type demo_init ≠ Some "fastq")
    by (vm_compute; discriminate).
  assert (H4 : input_type demo_init ≠ Some "assembly")
    by (vm_compute; discriminate).
  split; [repeat apply conj; assumption|].
  split; [|split].
  - destruct (proj1 (proj2 (get_user_channel_result fastqc)) H1)
      as (m & Hm & _ & _ & Hch & _).
    exists m. split; assumption.
  - destruct (proj1 (proj2 (proj2 (get_user_channel_result spades))) H2)
      as (m & Hm & _ & _ & Hch & _).
    exists m. split; assumption.
  - exact (proj2 (proj2 (proj2 (get_user_channel_result demo_init))) H3 H4).
Defined.

(** ** The context [set_channels] builds *)

(** In the context [set_channels] builds, the four keys the method sets
    itself hold the descriptor's values even when the keyword arguments
    carry the same keys; every other key holds what the keyword arguments
    give it, and is absent when they do not. *)
Theorem set_channels_context_keys
    (self : Process) (kwargs : gmap string pyval) :
  let r := set_channels kwargs self in
  context_value (after r) "input_channel"
  = Some (py_opt (input_channel self))
  ∧ context_value (after r) "output_channel"
    = Some (py_opt (output_channel self))
  ∧ context_value (after r) "template" = Some (PStr (template self))
  ∧ context_value (after r) "forks"
    = Some (PStr (join nl (forks (after r))))
  ∧ ∀ key : string,
      key ≠ "input_channel" → key ≠ "output_channel" →
      key ≠ "template" → key ≠ "forks" →
      context_value (after r) key = kwargs !! key.
Proof.
  intros r. subst r. rewrite set_channels_run.
  unfold context_value, after. simpl.
  split; [apply lookup_union_Some_l, lookup_insert_eq|].
  split.
  { apply lookup_union_Some_l. rewrite lookup_insert_ne by discriminate.
    apply lookup_insert_eq. }
  split.
  { apply lookup_union_Some_l. rewrite !lookup_insert_ne by discriminate.
    apply lookup_insert_eq. }
  split.
  { apply lookup_union_Some_l. rewrite !lookup_insert_ne by discriminate.
    apply lookup_singleton_eq. }
  intros key H1 H2 H3 H4. apply lookup_union_r.
  rewrite !lookup_insert_ne by congruence.
  apply lookup_singleton_ne. congruence.
Qed.

(** Keyword arguments that try to set ["forks"] and carry an entry of
    their own. *)
Lemma set_channels_context_keys_witness :
  let kwargs : gmap string pyval :=
    {[ "pid" := PInt 2; "forks" := PStr "mine"; "adapters" := PStr "None" ]} in
  let r := set_channels kwargs demo_forked in
  ("adapters" ≠ "input_channel" ∧ "adapters" ≠ "output_channel"
   ∧ "adapters" ≠ "template" ∧ "adapters" ≠ "forks")
  ∧ context_value (after r) "forks"
    = Some (PStr (join nl (forks (after r))))
  ∧ context_value (after r) "adapters" = kwargs !! "adapters".
Proof.
  intros kwargs r.
  assert (H1 : "adapters" ≠ "input_channel") by discriminate.
  assert (H2 : "adapters" ≠ "output_channel") by discriminate.
  assert (H3 : "adapters" ≠ "template") by discriminate.
  assert (H4 : "adapters" ≠ "forks") by discriminate.
  split; [repeat apply conj; assumption|].
  destruct (set_channels_context_keys demo_forked kwargs)
    as (_ & _ & _ & Hforks & Hkeys).
  split; [exact Hforks|exact (Hkeys "adapters" H1 H2 H3 H4)].
Defined.

(** The broadcast destinations are not consumed by [set_channels]: on a
    descriptor that starts without any, a destination added before the
    first call is listed again, together with the one added after it, in
    the statement of the second call. *)
Theorem main_forks_are_not_consumed
    (self : Process) (kw1 kw2 : gmap string pyval) (a b : string) :
  main_forks self = [] →
  let oc := py_str (py_opt (output_channel self)) in
  let s1 := after (set_channels kw1 (after (update_main_forks a self))) in
  let s2 := after (set_channels kw2 (after (update_main_forks b s1))) in
  main_forks s1 = [a]
  ∧ main_forks s2 = [a; b]
  ∧ forks s2
    = forks self
      ++ [ nl +:+ oc +:+ ".set{ " +:+ a +:+ " }" +:+ nl;
           nl +:+ oc +:+ ".into{ " +:+ join ";" [a; b] +:+ " }" +:+ nl ].
Proof.
  intros Hmf oc s1 s2. subst oc s1 s2.
  rewrite !set_channels_run.
  destruct self as [? ? ? ? ? ? ? ? ? ? ? ? ? ? ? ? ? ? mf ? ? ? ?].
  cbn in Hmf. subst mf. cbn. rewrite <- app_assoc.
  repeat split; reflexivity.
Qed.

Lemma main_forks_are_not_consumed_witness :
  let self := after (set_main_channel_names (PInt 2) (PInt 3) (PInt 1)
                (built (@Spades__init__ demo_interpreter "spades"))) in
  let kw : gmap string pyval := {[ "pid" := PInt 2 ]} in
  let s1 := after (set_channels kw
              (after (update_main_forks "abricate_in_3" self))) in
  let s2 := after (set_channels kw
              (after (update_main_forks "prokka_in_3" s1))) in
  main_forks self = []
  ∧ forks s2
    = [ nl +:+ "spades_out_3.set{ abricate_in_3 }" +:+ nl;
        nl +:+ "spades_out_3.into{ abricate_in_3;prokka_in_3 }" +:+ nl ].
Proof.
  intros self kw s1 s2.
  assert (Hmf : main_forks self = []) by (vm_compute; reflexivity).
  split; [exact Hmf|].
  exact (proj2 (proj2 (main_forks_are_not_consumed self kw kw
                         "abricate_in_3" "prokka_in_3" Hmf))).
Defined.

(** ** Status names of different steps *)

Lemma has_underscore_append (a b : string) :
  has_underscore (a +:+ b) = has_underscore a || has_underscore b.
Proof.
  induction a as [|c a IH]; [reflexivity|].
  change (String c a +:+ b) with (String c (a +:+ b)).
  simpl. rewrite IH. apply orb_assoc.
Qed.

Lemma pretty_N_go_underscore (x : N) (s : string) :
  has_underscore s = false → has_underscore (pretty_N_go x s) = false.
Proof.
  revert s. induction (N.lt_wf_0 x) as [x _ IH]; intros s Hs.
  assert (x = 0 ∨ 0 < x)%N as [->|Hpos] by lia.
  - rewrite pretty_N_go_0. exact Hs.
  - rewrite pretty_N_go_step by assumption. apply IH.
    + apply N.div_lt; [assumption|reflexivity].
    + simpl. rewrite Hs. unfold pretty_N_char.
      repeat case_match; reflexivity.
Qed.

(** A printed integer has no underscore. *)
Lemma pretty_Z_underscore (z : Z) : has_underscore (pretty z) = false.
Proof.
  assert (HN : ∀ x : N, has_underscore (pretty x) = false).
  { intros x. unfold pretty, pretty_N.
    case_decide; [reflexivity|]. apply pretty_N_go_underscore. reflexivity. }
  destruct z as [|p|p]; [reflexivity|apply (HN (Npos p))|].
  change (pretty (Zneg p)) with ("-" +:+ pretty (Npos p)).
  rewrite has_underscore_append, HN. reflexivity.
Qed.

(** A name splits in one way only at its last underscore. *)
Lemma split_last_underscore (b1 b2 t1 t2 : string) :
  has_underscore t1 = false → has_underscore t2 = false →
  b1 +:+ "_" +:+ t1 = b2 +:+ "_" +:+ t2 → b1 = b2 ∧ t1 = t2.
Proof.
  intros H1 H2. revert b2.
  induction b1 as [|c b1 IH]; intros [|c' b2] Heq.
  - injection Heq as Heq. split; [reflexivity|exact Heq].
  - exfalso. change (String "_" t1 = String c' (b2 +:+ "_" +:+ t2)) in Heq.
    injection Heq as _ Heq. rewrite Heq, !has_underscore_append in H1.
    simpl in H1. rewrite orb_true_r in H1. discriminate.
  - exfalso. change (String c (b1 +:+ "_" +:+ t1) = String "_" t2) in Heq.
    injection Heq as _ Heq. rewrite <- Heq, !has_underscore_append in H2.
    simpl in H2. rewrite orb_true_r in H2. discriminate.
  - change (String c (b1 +:+ "_" +:+ t1) = String c' (b2 +:+ "_" +:+ t2))
      in Heq.
    injection Heq as -> Heq. destruct (IH _ Heq) as [-> ->].
    split; reflexivity.
Qed.

(** Two qualified names are the same only for the same base name at the
    same integer position. *)
Lemma qualified_collision_free (b1 b2 : string) (z1 z2 : Z) :
  qualified (PInt z1) b1 = qualified (PInt z2) b2 → b1 = b2 ∧ z1 = z2.
Proof.
  unfold qualified. simpl. intros Heq.
  apply split_last_underscore in Heq as [-> Heq];
    [|apply pretty_Z_underscore..].
  split; [reflexivity|]. apply (inj pretty), Heq.
Qed.

(** Steps at different integer positions never share a status name: of
    two descriptors that had no status strings, whatever status channels
    they declare, no name that [set_channels] gives the one is a name it
    gives the other. *)
Theorem status_strs_of_positions_disjoint
    (self1 self2 : Process) (kw1 kw2 : gmap string pyval) (z1 z2 : Z)
    (name : string) :
  kw1 !! "pid" = Some (PInt z1) →
  kw2 !! "pid" = Some (PInt z2) →
  z1 ≠ z2 →
  status_strs self1 = [] →
  status_strs self2 = [] →
  name ∈ status_strs (after (set_channels kw1 self1)) →
  name ∉ status_strs (after (set_channels kw2 self2)).
Proof.
  intros Hk1 Hk2 Hne Hs1 Hs2.
  rewrite !set_channels_status, Hk1, Hk2, Hs1, Hs2. simpl.
  intros Hin1 Hin2.
  apply list_elem_of_fmap in Hin1 as (b1 & -> & _).
  apply list_elem_of_fmap in Hin2 as (b2 & Heq & _).
  apply qualified_collision_free in Heq as [_ Heq]. congruence.
Qed.

(** [FastQC] at position 2 and [FastqcTrimmomatic] at position 3. *)
Lemma status_strs_of_positions_disjoint_witness :
  let fastqc := built (@FastQC__init__ demo_interpreter "fastqc") in
  let trim := built (@FastqcTrimmomatic__init__ demo_interpreter
                       "trimmomatic") in
  let kw2 : gmap string pyval := {[ "pid" := PInt 2 ]} in
  let kw3 : gmap string pyval := {[ "pid" := PInt 3 ]} in
  (kw2 !! "pid" = Some (PInt 2) ∧ kw3 !! "pid" = Some (PInt 3)
   ∧ (2 ≠ 3)%Z ∧ status_strs fastqc = [] ∧ status_strs trim = []
   ∧ "STATUS_fastqc_2" ∈ status_strs (after (set_channels kw2 fastqc)))
  ∧ "STATUS_fastqc_2" ∉ status_strs (after (set_channels kw3 trim)).
Proof.
  intros fastqc trim kw2 kw3.
  assert (H2 : kw2 !! "pid" = Some (PInt 2)) by (vm_compute; reflexivity).
  assert (H3 : kw3 !! "pid" = Some (PInt 3)) by (vm_compute; reflexivity).
  assert (Hne : (2 ≠ 3)%Z) by lia.
  assert (Hf : status_strs fastqc = []) by (vm_compute; reflexivity).
  assert (Ht : status_strs trim = []) by (vm_compute; reflexivity).
  assert (Hin : "STATUS_fastqc_2"
                ∈ status_strs (after (set_channels kw2 fastqc)))
    by (vm_compute; apply elem_of_cons; left; reflexivity).
  split; [repeat apply conj; assumption|].
  exact (status_strs_of_positions_disjoint fastqc trim kw2 kw3 2 3
           "STATUS_fastqc_2" H2 H3 Hne Hf Ht Hin).
Defined.

(** Without a ["pid"] keyword the position is [None], and [set_channels]
    still returns: every status name is qualified with the text
    [None]. *)
Theorem set_channels_without_pid
    (self : Process) (kwargs : gmap string pyval) :
  kwargs !! "pid" = None →
  let r := set_channels kwargs self in
  outcome r = inr tt
  ∧ pid (after r) = PNone
  ∧ status_strs (after r)
    = status_strs self ++ ((λ base, base +:+ "_None") <$> status_channels self)
  ∧ context_value (after r) "pid" = None.
Proof.
  intros Hpid r. subst r.
  destruct (set_channels_context_keys self kwargs) as (_ & _ & _ & _ & Hkey).
  rewrite Hkey by discriminate.
  rewrite set_channels_run, Hpid. repeat split; reflexivity.
Qed.

Lemma set_channels_without_pid_witness :
  let self := built (@FastQC__init__ demo_interpreter "fastqc") in
  let kwargs : gmap string pyval := ∅ in
  kwargs !! "pid" = None
  ∧ status_strs (after (set_channels kwargs self))
    = ["STATUS_fastqc_None"; "STATUS_report_None"].
Proof.
  intros self kwargs.
  assert (Hpid : kwargs !! "pid" = None) by (vm_compute; reflexivity).
  split; [exact Hpid|].
  exact (proj1 (proj2 (proj2 (set_channels_without_pid self kwargs Hpid)))).
Defined.

(** ** More on [set_secondary_channel] *)

(** A repetition-free list whose members are all [d], and which has [d],
    is [[d]]. *)
Lemma NoDup_all_same (d : string) (l : list string) :
  NoDup l → d ∈ l → (∀ x, x ∈ l → x = d) → l = [d].
Proof.
  intros Hnd Hd Hall. destruct l as [|a l].
  - apply elem_of_nil in Hd as [].
  - assert (a = d) as -> by (apply Hall; left).
    apply NoDup_cons in Hnd as [Hx _]. f_equal.
    destruct l as [|b l]; [reflexivity|]. exfalso.
    assert (b = d) as -> by (apply Hall; right; left).
    apply Hx. left.
Qed.

(** Called before any context exists, with a source that does not begin
    with [MAIN], the method raises [TypeError] only after it has appended
    the fork statement: the fork list is one statement longer and there
    is still no context. *)
Theorem set_secondary_channel_without_context `{Interpreter}
    (source : string) (channel_list : list string) (self : Process) :
  String.prefix "MAIN" source = false →
  _context self = None →
  let r := set_secondary_channel source channel_list self in
  outcome r = inl (TypeError "'NoneType' object is not a mapping")
  ∧ forks (after r)
    = forks self
      ++ [spec_fork_statement (source +:+ "_" +:+ py_str (pid self))
            (set_iter channel_list)]
  ∧ _context (after r) = None
  ∧ pid (after r) = pid self
  ∧ main_forks (after r) = main_forks self.
Proof.
  intros Hside Hctx r. subst r.
  rewrite set_secondary_channel_side_run, Hctx by assumption.
  destruct self. cbn in Hctx. subst. repeat split; reflexivity.
Qed.

Lemma set_secondary_channel_without_context_witness :
  let self := built (@IntegrityCoverage__init__ demo_interpreter
                       "integrity_coverage") in
  let r := @set_secondary_channel demo_interpreter "SIDE_phred"
             ["trim_in_8"] self in
  (String.prefix "MAIN" "SIDE_phred" = false ∧ _context self = None)
  ∧ outcome r = inl (TypeError "'NoneType' object is not a mapping")
  ∧ forks (after r) = [nl +:+ "SIDE_phred_None.set{ trim_in_8 }" +:+ nl].
Proof.
  intros self r.
  assert (Hside : String.prefix "MAIN" "SIDE_phred" = false)
    by reflexivity.
  assert (Hctx : _context self = None) by (vm_compute; reflexivity).
  split; [split; assumption|].
  destruct (@set_secondary_channel_without_context demo_interpreter
              "SIDE_phred" ["trim_in_8"] self Hside Hctx)
    as (Hout & Hforks & _).
  split; [exact Hout|exact Hforks].
Defined.

(** The form of the statement follows the number of different
    destinations, not the length of the list: a non-empty list that
    repeats one destination gives the [set] form, and an empty list gives
    an [into] statement with nothing between the braces. *)
Theorem set_secondary_channel_statement_form `{Interpreter}
    (source : string) (channel_list : list string) (d : string)
    (self : Process) :
  set_iter_spec →
  String.prefix "MAIN" source = false →
  let src := source +:+ "_" +:+ py_str (pid self) in
  (d ∈ channel_list → (∀ x, x ∈ channel_list → x = d) →
   forks (after (set_secondary_channel source channel_list self))
   = forks self ++ [nl +:+ src +:+ ".set{ " +:+ d +:+ " }" +:+ nl])
  ∧ forks (after (set_secondary_channel source [] self))
    = forks self ++ [nl +:+ src +:+ ".into{  }" +:+ nl].
Proof.
  intros Hspec Hside src. subst src.
  rewrite !set_secondary_channel_side_run by assumption. split.
  - intros Hd Hall. destruct (Hspec channel_list) as [Hnd Hin].
    rewrite (NoDup_all_same d (set_iter channel_list)).
    + destruct (_context self), self; reflexivity.
    + exact Hnd.
    + apply Hin, Hd.
    + intros x Hx. apply Hall, Hin, Hx.
  - destruct (Hspec []) as [_ Hin].
    assert (Hnil : set_iter [] = []).
    { destruct (set_iter []) as [|a l]; [reflexivity|]. exfalso.
      apply (not_elem_of_nil a), Hin. left. }
    rewrite Hnil. destruct (_context self), self; reflexivity.
Qed.

Lemma set_secondary_channel_statement_form_witness :
  let same := ["trim_in_8"; "trim_in_8"] in
  (@set_iter_spec demo_interpreter
   ∧ String.prefix "MAIN" "SIDE_phred" = false
   ∧ "trim_in_8" ∈ same
   ∧ (∀ x, x ∈ same → x = "trim_in_8"))
  ∧ forks (after (@set_secondary_channel demo_interpreter "SIDE_phred" same
                    demo_integrity))
    = forks demo_integrity
      ++ [nl +:+ "SIDE_phred_7.set{ trim_in_8 }" +:+ nl]
  ∧ forks (after (@set_secondary_channel demo_interpreter "SIDE_phred" []
                    demo_integrity))
    = forks demo_integrity ++ [nl +:+ "SIDE_phred_7.into{  }" +:+ nl].
Proof.
  intros same.
  assert (Hside : String.prefix "MAIN" "SIDE_phred" = false)
    by reflexivity.
  assert (Hd : "trim_in_8" ∈ same) by (left).
  assert (Hall : ∀ x, x ∈ same → x = "trim_in_8").
  { intros x Hx. repeat (apply elem_of_cons in Hx as [->|Hx]);
      [reflexivity..|apply elem_of_nil in Hx as []]. }
  split; [split; [exact demo_set_iter_spec|repeat apply conj; assumption]|].
  destruct (@set_secondary_channel_statement_form demo_interpreter
              "SIDE_phred" same "trim_in_8" demo_integrity
              demo_set_iter_spec Hside) as [Hset Hinto].
  split; [exact (Hset Hd Hall)|exact Hinto].
Defined.



(** ** More on [Status.set_status_channels] *)

(** With an empty list the method raises [IndexError] and leaves the
    descriptor, its context included, as it was. *)
Theorem set_status_channels_empty (self : Process) :
  let r := set_status_channels [] self in
  outcome r = inl (IndexError "list index out of range")
  ∧ after r = self.
Proof. split; reflexivity. Qed.

(** The method does not update the context, it replaces it: after a call
    that returns, the context has the single entry ["status_channels"],
    so what [set_channels] had put there (the channel names, the
    template, the forks, the keyword arguments) is gone; the attributes
    of the descriptor other than the context are untouched. *)
Theorem set_status_channels_replaces_context
    (self : Process) (kwargs : gmap string pyval)
    (channel_list : list string) :
  channel_list ≠ [] →
  let self1 := after (set_channels kwargs self) in
  let r := set_status_channels channel_list self1 in
  outcome r = inr tt
  ∧ (∃ ctx : gmap string pyval,
       _context (after r) = Some ctx ∧ size ctx = 1
       ∧ is_Some (ctx !! "status_channels"))
  ∧ (∀ key : string, key ≠ "status_channels" →
       context_value (after r) key = None)
  ∧ forks (after r) = forks self1
  ∧ status_strs (after r) = status_strs self1
  ∧ pid (after r) = pid self1
  ∧ output_channel (after r) = output_channel self1.
Proof.
  intros Hne self1 r. subst r. generalize self1. clear self1. intros self1.
  unfold set_status_channels.
  destruct channel_list as [|c [|c' l]]; [contradiction| |];
    destruct self1; unfold context_value; cbn;
    (split; [reflexivity|]);
    (split; [eexists; split; [reflexivity|];
             split; [apply map_size_singleton|];
             rewrite lookup_singleton_eq; eauto|]);
    (split; [intros key Hkey; apply lookup_singleton_ne; congruence|]);
    repeat split; reflexivity.
Qed.

Lemma set_status_channels_replaces_context_witness :
  let kwargs : gmap string pyval := {[ "pid" := PInt 9 ]} in
  let self := built (@StatusCompiler__init__ demo_interpreter
                       "status_compiler") in
  let r := set_status_channels ["STATUS_1"; "STATUS_fastqc_2"]
             (after (set_channels kwargs self)) in
  ["STATUS_1"; "STATUS_fastqc_2"] ≠ []
  ∧ context_value (after (set_channels kwargs self)) "template"
    = Some (PStr "status_compiler")
  ∧ context_value (after r) "template" = None
  ∧ context_value (after r) "forks" = None.
Proof.
  intros kwargs self r.
  assert (Hne : ["STATUS_1"; "STATUS_fastqc_2"] ≠ []) by discriminate.
  split; [exact Hne|].
  split; [vm_compute; reflexivity|].
  destruct (set_status_channels_replaces_context self kwargs
              ["STATUS_1"; "STATUS_fastqc_2"] Hne)
    as (_ & _ & Hkeys & _).
  split; apply Hkeys; discriminate.
Defined.

(** ** More on the entry point *)

(** [set_raw_inputs] with any number of records, on a descriptor with a
    context: it returns, appends one fork statement per record in the
    order of the mapping ([set] for a single target, [into] otherwise,
    also for no target), sets ["main_inputs"] to the bootstrap statements
    joined by line feeds in that order and ["forks"] to the join of the
    fork list, and keeps the other entries of the context.  With an
    empty mapping the fork list is unchanged and ["main_inputs"] is the
    empty string. *)
Theorem set_raw_inputs_records
    (self : Process) (ctx : gmap string pyval)
    (raw_input : list (string * raw_input_record)) :
  _context self = Some ctx →
  let r := set_raw_inputs raw_input self in
  outcome r = inr tt
  ∧ forks (after r)
    = forks self
      ++ ((λ el, spec_fork_statement (ri_channel el) (ri_raw_forks el))
            <$> raw_input.*2)
  ∧ context_value (after r) "main_inputs"
    = Some (PStr (join nl (ri_channel_str <$> raw_input.*2)))
  ∧ context_value (after r) "forks"
    = Some (PStr (join nl (forks (after r))))
  ∧ (∀ key : string, key ≠ "forks" → key ≠ "main_inputs" →
       context_value (after r) key = ctx !! key)
  ∧ (raw_input = [] →
     forks (after r) = forks self
     ∧ context_value (after r) "main_inputs" = Some (PStr "")).
Proof.
  intros Hctx r. subst r. rewrite set_raw_inputs_run, Hctx.
  unfold context_value, outcome, after.
  destruct self. simpl.
  split; [reflexivity|]. split; [reflexivity|].
  split.
  { apply lookup_union_Some_l. rewrite lookup_insert_ne by discriminate.
    apply lookup_singleton_eq. }
  split; [apply lookup_union_Some_l, lookup_insert_eq|].
  split.
  { intros key Hf Hm. apply lookup_union_r.
    rewrite lookup_insert_ne by congruence.
    apply lookup_singleton_ne. congruence. }
  intros ->. simpl. rewrite app_nil_r. split; [reflexivity|].
  apply lookup_union_Some_l. rewrite lookup_insert_ne by discriminate.
  apply lookup_singleton_eq.
Qed.

(** Two raw inputs, the second without a fork target. *)
Lemma set_raw_inputs_records_witness :
  let ctx := default ∅ (_context demo_init) in
  let raw_input :=
    [ ("fastq", RawInput "IN_fastq_raw" "IN_fastq_raw = A" ["x_in_0"]);
      ("assembly", RawInput "IN_fasta_raw" "IN_fasta_raw = B" []) ] in
  let r := set_raw_inputs raw_input demo_init in
  _context demo_init = Some ctx
  ∧ forks (after r)
    = [ nl +:+ "IN_fastq_raw.set{ x_in_0 }" +:+ nl;
        nl +:+ "IN_fasta_raw.into{  }" +:+ nl ]
  ∧ context_value (after r) "main_inputs"
    = Some (PStr ("IN_fastq_raw = A" +:+ nl +:+ "IN_fasta_raw = B")).
Proof.
  intros ctx raw_input r.
  assert (Hctx : _context demo_init = Some ctx) by (vm_compute; reflexivity).
  split; [exact Hctx|].
  destruct (set_raw_inputs_records demo_init ctx raw_input Hctx)
    as (_ & Hforks & Hmain & _).
  split; [exact Hforks|exact Hmain].
Defined.

(** Before any context exists [set_raw_inputs] raises [TypeError], but
    only after the loop has appended the fork statement of every record:
    the failed call leaves the fork list longer by the number of
    records, and still no context. *)
Theorem set_raw_inputs_without_context
    (self : Process) (raw_input : list (string * raw_input_record)) :
  _context self = None →
  let r := set_raw_inputs raw_input self in
  outcome r = inl (TypeError "'NoneType' object is not a mapping")
  ∧ forks (after r)
    = forks self
      ++ ((λ el, spec_fork_statement (ri_channel el) (ri_raw_forks el))
            <$> raw_input.*2)
  ∧ length (forks (after r)) = length (forks self) + length raw_input
  ∧ _context (after r) = None.
Proof.
  intros Hctx r. subst r. rewrite set_raw_inputs_run, Hctx.
  destruct self. cbn in Hctx. subst. cbn.
  split; [reflexivity|]. split; [reflexivity|]. split; [|reflexivity].
  rewrite length_app, !length_fmap. reflexivity.
Qed.

Lemma set_raw_inputs_without_context_witness :
  let self := built (@Init__init__ demo_interpreter "init") in
  _context self = None
  ∧ length (forks (after (set_raw_inputs demo_raw_one self))) = 1.
Proof.
  intros self.
  assert (Hctx : _context self = None) by (vm_compute; reflexivity).
  split; [exact Hctx|].
  exact (proj1 (proj2 (proj2 (set_raw_inputs_without_context self
                                demo_raw_one Hctx)))).
Defined.

(** [set_secondary_inputs]: with a context it returns and sets
    ["secondary_inputs"] to the statements joined by line feeds in the
    order of the mapping (the empty string for an empty mapping), keeps
    every other entry, and changes no attribute but the context: putting
    the old context back gives the descriptor of before the call, so in
    particular the fork list and the attributes [secondary_input_str] and
    [secondary_inputs] are as they were.  Without a context it raises
    [TypeError] and changes nothing. *)
Theorem set_secondary_inputs_result
    (self : Process) (channel_dict : list (string * string)) :
  let r := set_secondary_inputs channel_dict self in
  match _context self with
  | Some ctx =>
      outcome r = inr tt
      ∧ context_value (after r) "secondary_inputs"
        = Some (PStr (join nl channel_dict.*2))
      ∧ (∀ key : string, key ≠ "secondary_inputs" →
           context_value (after r) key = ctx !! key)
      ∧ forks (after r) = forks self
      ∧ secondary_input_str (after r) = secondary_input_str self
      ∧ secondary_inputs (after r) = secondary_inputs self
      ∧ with_context (_context self) (after r) = self
  | None =>
      outcome r = inl (TypeError "'NoneType' object is not a mapping")
      ∧ after r = self
  end.
Proof.
  intros r. subst r. unfold set_secondary_inputs, context_merge.
  erewrite bind_ok by reflexivity.
  destruct self as [? ? ? ? ? ? ? ? ? ? ? ? ? ? ? ? ? ? ? ? ? [ctx|] ?];
    unfold context_value; cbn; [|split; reflexivity].
  split; [reflexivity|].
  split; [apply lookup_union_Some_l, lookup_singleton_eq|].
  split; [|repeat split; reflexivity].
  intros key Hkey. apply lookup_union_r, lookup_singleton_ne. congruence.
Qed.

(** The secondary inputs of two steps, on the entry point after
    [set_channels]. *)
Lemma set_secondary_inputs_result_witness :
  let channel_dict :=
    [ ("genomeSize", "IN_genome_size = Channel.value(params.genomeSize)");
      ("adapters", "IN_adapters = Channel.value(params.adapters)") ] in
  let r := set_secondary_inputs channel_dict demo_init in
  "template" ≠ "secondary_inputs"
  ∧ outcome r = inr tt
  ∧ context_value (after r) "secondary_inputs"
    = Some (PStr ("IN_genome_size = Channel.value(params.genomeSize)"
                  +:+ nl
                  +:+ "IN_adapters = Channel.value(params.adapters)"))
  ∧ context_value (after r) "template" = Some (PStr "init")
  ∧ with_context (_context demo_init) (after r) = demo_init.
Proof.
  intros channel_dict r.
  assert (Hkey : "template" ≠ "secondary_inputs") by discriminate.
  split; [exact Hkey|].
  assert (Hctx : _context demo_init = Some (default ∅ (_context demo_init)))
    by (vm_compute; reflexivity).
  pose proof (set_secondary_inputs_result demo_init channel_dict) as Hres.
  cbv zeta in Hres. rewrite Hctx in Hres.
  destruct Hres as (Hout & Hval & Hkeys & _ & _ & _ & Hframe).
  split; [exact Hout|]. split; [exact Hval|].
  split.
  - etransitivity; [exact (Hkeys "template" Hkey)|].
    vm_compute. reflexivity.
  - rewrite Hctx. exact Hframe.
Defined.

(** ** More on [template_str] *)

(** The property never changes the descriptor.  An empty dictionary
    counts as no context; with a context that has an entry the result is
    what the engine renders from the resolved template path and that
    context, or the failure of the engine. *)
Theorem template_str_result `{Interpreter} (self : Process) :
  let r := template_str self in
  after r = self
  ∧ (_context self = Some ∅ → outcome r = inl ContextNotSet)
  ∧ (∀ (ctx : gmap string pyval) (tpl_path : string),
       _context self = Some ctx → ctx ≠ ∅ →
       _template_path self = Some tpl_path →
       outcome r = match render tpl_path ctx with
                   | inr x => inr x
                   | inl msg => inl (TemplateEngineError msg)
                   end).
Proof.
  intros r. subst r. unfold template_str.
  erewrite bind_ok by reflexivity.
  split; [|split].
  - destruct (_context self) as [ctx|]; [|reflexivity].
    destruct (bool_decide (size ctx = 0)); [reflexivity|].
    erewrite bind_ok by reflexivity.
    destruct (_template_path self) as [tpl_path|]; [|reflexivity].
    destruct (render tpl_path ctx); reflexivity.
  - intros ->. reflexivity.
  - intros ctx tpl_path -> Hne ->.
    rewrite bool_decide_eq_false_2
      by (intros Hsize; apply Hne, map_size_empty_iff, Hsize).
    erewrite bind_ok by reflexivity.
    destruct (render tpl_path ctx); reflexivity.
Qed.

Lemma template_str_result_witness :
  let ctx := default ∅ (_context demo_spades) in
  let path := "/opt/generator/templates/spades.nf" in
  (_context (with_context (Some ∅) demo_spades) = Some ∅
   ∧ _context demo_spades = Some ctx ∧ ctx ≠ ∅
   ∧ _template_path demo_spades = Some path)
  ∧ outcome (@template_str demo_interpreter
               (with_context (Some ∅) demo_spades)) = inl ContextNotSet
  ∧ outcome (@template_str demo_interpreter demo_spades)
    = match @render demo_interpreter path ctx with
      | inr x => inr x
      | inl msg => inl (TemplateEngineError msg)
      end.
Proof.
  intros ctx path.
  assert (H0 : _context (with_context (Some ∅) demo_spades) = Some ∅)
    by reflexivity.
  assert (Hctx : _context demo_spades = Some ctx)
    by (vm_compute; reflexivity).
  assert (Hne : ctx ≠ ∅).
  { intros Heq. apply (f_equal (λ m : gmap string pyval, m !! "template"))
      in Heq. vm_compute in Heq. discriminate. }
  assert (Hpath : _template_path demo_spades = Some path)
    by (vm_compute; reflexivity).
  split; [repeat apply conj; assumption|].
  split.
  - exact (proj1 (proj2 (@template_str_result demo_interpreter
                           (with_context (Some ∅) demo_spades))) H0).
  - exact (proj2 (proj2 (@template_str_result demo_interpreter demo_spades))
             ctx path Hctx Hne Hpath).
Defined.

(** ** The catalog *)

(** In every class of the module, a descriptor ignores the types of its
    neighbours exactly when it has no list of link starts ([None] rather
    than a list), and one that does not advance the position also
    ignores the types, declares no status channel and has no output
    type. *)
Theorem catalog_ignore_flags `{Interpreter}
    (init : string → exn + Process) (name : string) (self : Process) :
  init ∈ constructors →
  init name = inr self →
  (ignore_type self = true ↔ link_start self = None)
  ∧ (ignore_pid self = true →
     ignore_type self = true
     ∧ status_channels self = []
     ∧ output_type self = None).
Proof.
  intros Hin. unfold constructors in Hin.
  repeat (apply elem_of_cons in Hin as [->|Hin]);
    [..|apply elem_of_nil in Hin as []];
    unfold StatusCompiler__init__, Status__init__, Init__init__,
      IntegrityCoverage__init__, SeqTyping__init__, PathoTyping__init__,
      CheckCoverage__init__, FastQC__init__, Trimmomatic__init__,
      FastqcTrimmomatic__init__, Skesa__init__, Spades__init__,
      ProcessSpades__init__, AssemblyMapping__init__, Pilon__init__,
      Mlst__init__, Abricate__init__, Prokka__init__, Chewbbaca__init__,
      TraceCompiler__init__, subclass_init, Process__init__;
    destruct (_set_template name) as [e|p]; try discriminate;
    cbn; intros [= <-]; cbn;
    (split; [split; intros; (reflexivity || discriminate)|]);
    intros; try discriminate; repeat split; reflexivity.
Qed.

Lemma catalog_ignore_flags_witness :
  let self := built (@SeqTyping__init__ demo_interpreter "fastqc") in
  (@SeqTyping__init__ demo_interpreter ∈ @constructors demo_interpreter
   ∧ @SeqTyping__init__ demo_interpreter "fastqc" = inr self)
  ∧ (ignore_type self = true ↔ link_start self = None)
  ∧ (ignore_pid self = true →
     ignore_type self = true
     ∧ status_channels self = []
     ∧ output_type self = None).
Proof.
  intros self.
  assert (Hin : @SeqTyping__init__ demo_interpreter
                ∈ @constructors demo_interpreter)
    by (do 4 (apply elem_of_cons; right); apply elem_of_cons; left;
        reflexivity).
  assert (Hself : @SeqTyping__init__ demo_interpreter "fastqc" = inr self)
    by (vm_compute; reflexivity).
  split; [split; assumption|].
  exact (@catalog_ignore_flags demo_interpreter _ "fastqc" self Hin Hself).
Defined.

(** ** Order of the calls *)

(** The context is a snapshot: channel names set after [set_channels] are
    in the attributes but not in the context, which still holds the
    names of the time of the call, until [set_channels] is called
    again. *)
Theorem context_is_a_snapshot
    (self : Process) (kwargs : gmap string pyval)
    (input_suffix output_suffix lane : pyval) :
  let s1 := after (set_channels kwargs self) in
  let s2 := after (set_main_channel_names input_suffix output_suffix lane s1) in
  let s3 := after (set_channels kwargs s2) in
  let new_in := template self +:+ "_in_" +:+ py_str input_suffix in
  let new_out := template self +:+ "_out_" +:+ py_str output_suffix in
  input_channel s2 = Some new_in
  ∧ output_channel s2 = Some new_out
  ∧ context_value s2 "input_channel" = Some (py_opt (input_channel self))
  ∧ context_value s2 "output_channel" = Some (py_opt (output_channel self))
  ∧ context_value s3 "input_channel" = Some (PStr new_in)
  ∧ context_value s3 "output_channel" = Some (PStr new_out).
Proof.
  intros s1 s2 s3 new_in new_out.
  destruct (set_channels_context_keys self kwargs) as (Hi1 & Ho1 & _).
  destruct (set_channels_context_keys s2 kwargs) as (Hi3 & Ho3 & _).
  fold s3 in Hi3, Ho3. fold s1 in Hi1, Ho1.
  assert (Htpl : template s1 = template self)
    by (unfold s1; rewrite set_channels_run; reflexivity).
  assert (Hin2 : input_channel s2 = Some new_in)
    by (unfold s2, new_in; rewrite <- Htpl; destruct s1; reflexivity).
  assert (Hout2 : output_channel s2 = Some new_out)
    by (unfold s2, new_out; rewrite <- Htpl; destruct s1; reflexivity).
  assert (Hctx2 : _context s2 = _context s1)
    by (unfold s2; destruct s1; reflexivity).
  split; [exact Hin2|]. split; [exact Hout2|].
  unfold context_value in *. rewrite Hctx2.
  split; [exact Hi1|]. split; [exact Ho1|].
  rewrite Hi3, Ho3, Hin2, Hout2. split; reflexivity.
Qed.
